(** * BTZ_SCHEDULE (app.py): scheduling and classification engine

    Shallow embedding of the pure helpers of [app.py]: the duration parser
    and formatter ([parse_duration_hms], [duration_to_hms]), the table
    normaliser ([_safe_int], [normalize_tasks]), the chained scheduler
    ([compute_schedule]), the status classifier ([classify_rows]), the
    clock-time parser and span display ([parse_time_str], [human_td]), the
    "Adicionar" form and the save button of the linked editor, and the KPIs
    (running and next row, completed counter, progress-bar fraction).

    Conventions.
    - Strings are [list ascii] internally; Python's [str.strip], [str.split]
      and [int(str)] are written out on them (ASCII digits only).
    - A [timedelta] of whole seconds is a [Z] number of seconds.
    - Instants (pandas timestamps and [now_br()]) are [Z] microseconds.
    - pandas' parsing of date and datetime strings ([pd.to_datetime] with
      [errors="coerce"]), the time-zone localisation and [date.isoformat] /
      [datetime.fromisoformat] are kept abstract: they are Section
      variables, so every result holds for any parser. So are pandas'
      range checks on [Timedelta] and [Timestamp] values, and the float
      rounding of [int(td.total_seconds())] in [human_td].
    - The save button sees the rows of the edited table with their index
      labels, of an abstract type. *)

From Stdlib Require Import ZArith List Ascii String Bool Lia QArith.
From Stdlib Require Import Qminmax Sorting.Sorted Sorting.Permutation.
Import ListNotations.
Open Scope Z_scope.

(* ------------------------------------------------------------------ *)
(** ** Characters and Python string primitives *)

Module PyStr.

(** [str.isspace] on ASCII: \t \n \x0b \x0c \r, \x1c-\x1f and space. *)
Definition is_py_space (c : ascii) : bool :=
  let n := nat_of_ascii c in
  ((9 <=? n)%nat && (n <=? 13)%nat) || ((28 <=? n)%nat && (n <=? 32)%nat).

Definition is_digit (c : ascii) : bool :=
  let n := nat_of_ascii c in (48 <=? n)%nat && (n <=? 57)%nat.

(** ':' is 58, '-' is 45, '+' is 43, '_' is 95. *)
Definition is_colon (c : ascii) : bool := (nat_of_ascii c =? 58)%nat.
Definition is_minus (c : ascii) : bool := (nat_of_ascii c =? 45)%nat.
Definition is_plus (c : ascii) : bool := (nat_of_ascii c =? 43)%nat.
Definition is_underscore (c : ascii) : bool := (nat_of_ascii c =? 95)%nat.

Definition digit_value (c : ascii) : Z := Z.of_nat (nat_of_ascii c) - 48.

Fixpoint drop_space (l : list ascii) : list ascii :=
  match l with
  | [] => []
  | c :: r => if is_py_space c then drop_space r else l
  end.

(** [s.strip()] *)
Definition strip (l : list ascii) : list ascii :=
  rev (drop_space (rev (drop_space l))).

(** [s.split(":")]: the pieces between colons, possibly empty. *)
Fixpoint split_go (cur : list ascii) (l : list ascii) : list (list ascii) :=
  match l with
  | [] => [rev cur]
  | c :: r => if is_colon c then rev cur :: split_go [] r
              else split_go (c :: cur) r
  end.

Definition split_colon (l : list ascii) : list (list ascii) := split_go [] l.

(** The digits of a base-10 literal after its first digit: each further
    digit may be preceded by one underscore. *)
Fixpoint digits_tail (acc : Z) (l : list ascii) : option Z :=
  match l with
  | [] => Some acc
  | c :: r =>
      if is_digit c then digits_tail (acc * 10 + digit_value c) r
      else if is_underscore c then
        match r with
        | d :: r' => if is_digit d then digits_tail (acc * 10 + digit_value d) r'
                     else None
        | [] => None
        end
      else None
  end.

Definition dec_literal (l : list ascii) : option Z :=
  match l with
  | c :: r => if is_digit c then digits_tail (digit_value c) r else None
  | [] => None
  end.

(** [int(p)] for a string [p]: surrounding whitespace, an optional sign,
    then a base-10 literal; [None] stands for the raised [ValueError]. *)
Definition py_int (p : list ascii) : option Z :=
  match strip p with
  | c :: r =>
      if is_minus c then option_map Z.opp (dec_literal r)
      else if is_plus c then dec_literal r
      else dec_literal (c :: r)
  | [] => None
  end.

(** [f"{n:02d}"] for [n >= 0]: the decimal digits, left-padded with '0'
    to width 2. *)
Definition digit_char (d : Z) : ascii := ascii_of_nat (48 + Z.to_nat d).

Fixpoint digits_of (fuel : nat) (n : Z) : list Z :=
  match fuel with
  | O => []
  | S f => if n <? 10 then [n] else digits_of f (n / 10) ++ [n mod 10]
  end.

Definition show_nat (n : Z) : list ascii :=
  map digit_char (digits_of (S (Z.to_nat n)) n).

Definition fmt02 (n : Z) : list ascii :=
  let l := show_nat n in
  List.repeat "0"%char (2 - List.length l)%nat ++ l.

End PyStr.

(* ------------------------------------------------------------------ *)
(** ** TimeParser: [parse_duration_hms] and [duration_to_hms] *)

Module Duration.
Import PyStr.

(** [timedelta.max] is 999999999 days, 23:59:59.999999: larger values
    make the [timedelta] constructor raise [OverflowError], which the
    [except Exception] of [parse_duration_hms] turns into [None]. *)
Definition td_max_seconds : Z := 999999999 * 86400 + 86399.

Definition timedelta_of (t : Z) : option Z :=
  if t <=? td_max_seconds then Some t else None.

(** [[int(p) for p in parts]]: the first failing [int] raises. *)
Fixpoint ints_of_parts (ps : list (list ascii)) : option (list Z) :=
  match ps with
  | [] => Some []
  | p :: r =>
      match py_int p with
      | Some v => option_map (cons v) (ints_of_parts r)
      | None => None
      end
  end.

Definition parse_duration_hms_chars (l : list ascii) : option Z :=
  match ints_of_parts (split_colon (strip l)) with
  | Some [m; s] =>
      if (m <? 0) || negb ((0 <=? s) && (s <? 60)) then None
      else timedelta_of (m * 60 + s)
  | Some [h; m; s] =>
      if (h <? 0) || (m <? 0) || negb ((0 <=? s) && (s <? 60)) then None
      else timedelta_of (h * 3600 + m * 60 + s)
  | _ => None
  end.

(** [parse_duration_hms(s)]: the duration in seconds, or [None]. *)
Definition parse_duration_hms (s : string) : option Z :=
  parse_duration_hms_chars (list_ascii_of_string s).

Definition duration_to_hms_chars (td : Z) : list ascii :=
  let total := Z.max 0 td in
  let h := total / 3600 in
  let rem := total mod 3600 in
  let m := rem / 60 in
  let s := rem mod 60 in
  fmt02 h ++ [":"%char] ++ fmt02 m ++ [":"%char] ++ fmt02 s.

(** [duration_to_hms(timedelta(seconds=td))] *)
Definition duration_to_hms (td : Z) : string :=
  string_of_list_ascii (duration_to_hms_chars td).

(** The [HH:MM:SS] text of three components, as [duration_to_hms] writes
    each of them. *)
Definition hms_text (h m s : Z) : string :=
  string_of_list_ascii (fmt02 h ++ [":"%char] ++ fmt02 m ++ [":"%char] ++ fmt02 s).

End Duration.

(* ------------------------------------------------------------------ *)
(** ** Normalizer: [_safe_int] and [normalize_tasks] *)

Module Normalize.

(** One cell of the DataFrame as [_safe_int] sees it: missing ([pd.isna]),
    a value [x] with [int(x) = z], or a value on which [int] raises. *)
Inductive Cell := CNa | CInt (z : Z) | CBad.

Definition is_na (c : Cell) : bool := match c with CNa => true | _ => false end.

(** [_safe_int(x, default)] *)
Definition safe_int (x : Cell) (default : Z) : Z :=
  match x with
  | CNa => default
  | CInt z => z
  | CBad => default
  end.

(** A raw row; the text columns are taken after [astype(str)], and a
    missing Date, Start or Activity column is the "" the code fills in. *)
Record RawRow := {
  r_date : string; r_start : string; r_end : string;
  r_dur : Cell; r_act : string }.

(** A raw table: whether the "End" and "DurationSec" columns exist, and
    whether it has any other column (Date, Start, Activity, ...). *)
Record RawTable := {
  has_end : bool; has_dur : bool; has_other : bool; rows : list RawRow }.

Record NormRow := {
  n_date : string; n_start : string; n_dur : Z; n_act : string }.

Definition date_start_text (d t : string) : string := (d ++ " " ++ t)%string.

Section WithParser.
(** [pd.to_datetime(s, errors="coerce")] on one "Date Start" text, in
    microseconds; [None] is [NaT]. *)
Variable to_dt : string -> option Z.

(** The "DurationSec" column is used unless it is absent or all missing. *)
Definition dur_column_used (t : RawTable) : bool :=
  has_dur t && negb (forallb (fun r => is_na (r_dur r)) (rows t)).

(** [(end_dt - start_dt).dt.total_seconds().fillna(0).astype(int)
    .clip(lower=0)] for one row. *)
Definition end_duration (r : RawRow) : Z :=
  match to_dt (date_start_text (r_date r) (r_start r)),
        to_dt (date_start_text (r_date r) (r_end r)) with
  | Some s, Some e => Z.max 0 (Z.quot (e - s) 1000000)
  | _, _ => 0
  end.

Definition normalize_row (t : RawTable) (r : RawRow) : NormRow :=
  {| n_date := r_date r; n_start := r_start r;
     n_dur := if dur_column_used t then safe_int (r_dur r) 0
              else if has_end t then end_duration r
              else 0;
     n_act := r_act r |}.

(** Whether the frame has a column; [df_raw.empty] holds when it has no
    column or no row. *)
Definition has_columns (t : RawTable) : bool :=
  has_end t || has_dur t || has_other t.

(** [normalize_tasks(df_raw)]: an empty frame gives an empty table. *)
Definition normalize_tasks (t : RawTable) : list NormRow :=
  if has_columns t then map (normalize_row t) (rows t) else [].

End WithParser.
End Normalize.

(* ------------------------------------------------------------------ *)
(** ** Scheduler: [compute_schedule] *)

Module Schedule.
Import Normalize.

Definition second : Z := 1000000.
(** [GAP = timedelta(minutes=1)] *)
Definition GAP : Z := 60 * second.

(** [timedelta(seconds=s)]: [OverflowError] outside
    [[timedelta.min, timedelta.max]]. *)
Definition td_min_seconds : Z := - (999999999 * 86400).

Definition py_timedelta (s : Z) : option Z :=
  if (td_min_seconds <=? s) && (s <=? Duration.td_max_seconds) then Some s else None.

(** A row of [base] once "Date" and "Start_dt" are parsed. *)
Record Base := { b_date : Z; b_start : Z; b_dur : Z; b_act : string }.

(** A row of the result: [Date], [Start], [End], [DurationSec],
    [Activity]. *)
Record Sched := { s_date : Z; s_start : Z; s_end : Z; s_dur : Z; s_act : string }.

Section WithParsers.
(** [pd.to_datetime(base["Date"], errors="coerce").dt.date]: a day number,
    or [None] for [NaT]. *)
Variable to_date : string -> option Z.
(** [str] of a parsed date, and of [NaT]. *)
Variable date_str : Z -> string.
Definition date_text (od : option Z) : string :=
  match od with Some d => date_str d | None => "NaT"%string end.
(** [pd.to_datetime(..., errors="coerce")] on a "Date Start" text, in
    microseconds of local wall-clock time; [None] is [NaT]. *)
Variable to_dt : string -> option Z.
(** [.dt.tz_localize(TZINFO, nonexistent="shift_forward")] on one local
    time: [None] when it raises (an ambiguous local time). *)
Variable localize : Z -> option Z.

(** One row through the parsing of "Date" and "Start_dt": [None] when the
    localisation raises, [Some None] when [dropna] drops the row. *)
Definition base_row (r : NormRow) : option (option Base) :=
  let od := to_date (n_date r) in
  match to_dt (date_start_text (date_text od) (n_start r)) with
  | None => Some None
  | Some naive =>
      match localize naive with
      | None => None
      | Some t =>
          Some (match od with
                | Some d => Some {| b_date := d; b_start := t;
                                    b_dur := n_dur r; b_act := n_act r |}
                | None => None
                end)
      end
  end.

(** The parsed rows that [dropna(subset=["Date","Start_dt"])] keeps. *)
Fixpoint parse_rows (rs : list NormRow) : option (list Base) :=
  match rs with
  | [] => Some []
  | r :: rest =>
      match base_row r, parse_rows rest with
      | Some ob, Some bs => Some (match ob with Some b => b :: bs | None => bs end)
      | _, _ => None
      end
  end.

(** [sort_values(["Date","Start_dt"])]: stable, by date then start. *)
Definition key_le (a b : Base) : bool :=
  (b_date a <? b_date b) || ((b_date a =? b_date b) && (b_start a <=? b_start b)).

Fixpoint insert_row (x : Base) (l : list Base) : list Base :=
  match l with
  | [] => [x]
  | y :: r => if key_le x y then x :: y :: r else y :: insert_row x r
  end.

Fixpoint sort_rows (l : list Base) : list Base :=
  match l with
  | [] => []
  | x :: r => insert_row x (sort_rows r)
  end.

(** [prev_end_by_day.get(d)] *)
Fixpoint lookup_day (d : Z) (m : list (Z * Z)) : option Z :=
  match m with
  | [] => None
  | (k, v) :: r => if k =? d then Some v else lookup_day d r
  end.

(** pandas' bounds, in microseconds: whether a span converts to a
    [Timedelta], and whether an instant is a valid [Timestamp]. *)
Variable td_ok : Z -> bool.
Variable ts_ok : Z -> bool.

(** [Timestamp + timedelta]: [None] when it raises
    ([OutOfBoundsTimedelta] or [OutOfBoundsDatetime]). *)
Definition ts_add (a span : Z) : option Z :=
  if td_ok span && ts_ok (a + span) then Some (a + span) else None.

(** The loop over [base.iterrows()]: the first row of a day keeps its
    start, every later one starts [GAP] after the previous end of the day;
    [None] when [timedelta(seconds=...)] or an addition raises (the
    exception is not caught). *)
Fixpoint chain (prev_end_by_day : list (Z * Z)) (bs : list Base)
  : option (list Sched) :=
  match bs with
  | [] => Some []
  | b :: rest =>
      match py_timedelta (b_dur b) with
      | None => None
      | Some dur =>
          let ost := match lookup_day (b_date b) prev_end_by_day with
                     | Some e => ts_add e GAP
                     | None => Some (b_start b)
                     end in
          match ost with
          | None => None
          | Some st_dt =>
              match ts_add st_dt (dur * second) with
              | None => None
              | Some en_dt =>
                  option_map
                    (cons {| s_date := b_date b; s_start := st_dt; s_end := en_dt;
                             s_dur := b_dur b; s_act := b_act b |})
                    (chain ((b_date b, en_dt) :: prev_end_by_day) rest)
              end
          end
      end
  end.

(** [base] after normalisation, parsing, [dropna] and sorting; [None] when
    [tz_localize] raises. *)
Definition prepare (t : RawTable) : option (list Base) :=
  option_map sort_rows (parse_rows (normalize_tasks to_dt t)).

(** [compute_schedule(df_raw)]: [None] when it raises. *)
Definition compute_schedule (t : RawTable) : option (list Sched) :=
  match prepare t with
  | Some bs => chain [] bs
  | None => None
  end.

End WithParsers.
End Schedule.

(* ------------------------------------------------------------------ *)
(** ** Classifier and progress bar *)

Module Classify.
Import Schedule.

Inductive Status := Done | Running | Next | Upcoming.

Definition status_eqb (a b : Status) : bool :=
  match a, b with
  | Done, Done | Running, Running | Next, Next | Upcoming, Upcoming => true
  | _, _ => false
  end.

(** [_stat(r)] *)
Definition stat (now : Z) (r : Sched) : Status :=
  if s_end r <=? now then Done
  else if (s_start r <=? now) && (now <? s_end r) then Running
  else Upcoming.

(** [df.loc[fut[0], "Status"] = STATUS_NEXT] for the first "Futura" row. *)
Fixpoint promote_first (l : list Status) : list Status :=
  match l with
  | [] => []
  | Upcoming :: r => Next :: r
  | x :: r => x :: promote_first r
  end.

(** [classify_rows(df, now)]: the Status column. *)
Definition classify_rows (now : Z) (rs : list Sched) : list Status :=
  promote_first (map (stat now) rs).

Definition count_status (st : Status) (l : list Status) : nat :=
  List.length (filter (status_eqb st) l).

(** [timedelta.total_seconds()] of a span in microseconds. *)
Definition total_seconds (us : Z) : Q := us # 1000000.

(** Python's float division [a / b]: [None] is the [ZeroDivisionError]. *)
Definition py_div (a b : Q) : option Q :=
  if Qeq_bool b 0 then None else Some (a / b)%Q.

(** [pct = max(0.0, min(1.0, elapsed / total_secs)) if total_secs > 0 else 0.0]
    for the running row [current_row] at instant [now]. *)
Definition progress (current_row : Sched) (now : Z) : option Q :=
  let total_secs := total_seconds (s_end current_row - s_start current_row) in
  let elapsed := total_seconds (now - s_start current_row) in
  if Qle_bool total_secs 0 then Some 0%Q
  else option_map (fun q => Qmax 0 (Qmin 1 q))%Q (py_div elapsed total_secs).

End Classify.

(* ------------------------------------------------------------------ *)
(** ** Auxiliary definitions for the statements below *)

Module Props.
Import PyStr Normalize Schedule.

(** The value of a list of decimal digits, most significant first. *)
Definition dec_value (ds : list Z) (acc : Z) : Z :=
  fold_left (fun a d => a * 10 + d) ds acc.

Definition is_dec_digit (d : Z) : Prop := 0 <= d < 10.

(** Two rows whose [[Start, End)] intervals do not overlap. *)
Definition disjoint (a b : Sched) : Prop :=
  s_end a <= s_start b \/ s_end b <= s_start a.

Definition row_le (a b : Base) : Prop := key_le a b = true.
Definition date_le (a b : Base) : Prop := b_date a <= b_date b.

Definition base_key (b : Base) : Z * Z * string := (b_date b, b_dur b, b_act b).
Definition sched_key (y : Sched) : Z * Z * string := (s_date y, s_dur y, s_act y).

Section WithParsers.
Variable to_date : string -> option Z.
Variable date_str : Z -> string.
Variable to_dt : string -> option Z.

(** The rows whose "Date" parses and whose "Date Start" text parses, as
    (date, duration, activity). *)
Definition kept_rows (rs : list NormRow) : list (Z * Z * string) :=
  flat_map (fun r =>
    match to_date (n_date r) with
    | Some d =>
        match to_dt (date_start_text (date_str d) (n_start r)) with
        | Some _ => [(d, n_dur r, n_act r)]
        | None => []
        end
    | None => []
    end) rs.

End WithParsers.
End Props.

(** Concrete inputs for examples and witnesses. *)
Module Fixtures.
Import Normalize Schedule.

(** A scheduled row from its start and end only. *)
Definition mk_sched (a b : Z) : Sched :=
  {| s_date := 0; s_start := a; s_end := b; s_dur := (b - a) / second; s_act := ""%string |}.

(** A raw row of 2024-05-01 at 08:00:00 with the given duration cell. *)
Definition raw (d : Cell) : RawRow :=
  {| r_date := "2024-05-01"; r_start := "08:00:00"; r_end := "";
     r_dur := d; r_act := "Briefing" |}.

(** A small parser setting for concrete runs: one day, two start texts. *)
Definition test_to_date (s : string) : option Z :=
  if String.eqb s "2024-05-01" then Some 19844 else None.
Definition test_date_str (d : Z) : string := "2024-05-01".
Definition test_to_dt (s : string) : option Z :=
  if String.eqb s "2024-05-01 08:00:00" then Some (8 * 3600 * second)
  else if String.eqb s "2024-05-01 09:30:00" then Some (9 * 3600 * second + 1800 * second)
  else None.
Definition test_localize (t : Z) : option Z := Some t.
(** Nanosecond bounds, in microseconds: a span or an instant of at most
    [2^63 - 1] nanoseconds in absolute value. *)
Definition ns_bound_us : Z := 9223372036854775.
Definition test_td_ok (span : Z) : bool := Z.abs span <=? ns_bound_us.
Definition test_ts_ok (t : Z) : bool := Z.abs t <=? ns_bound_us.

Definition task (d s : string) (dur : Z) (a : string) : RawRow :=
  {| r_date := d; r_start := s; r_end := ""; r_dur := CInt dur; r_act := a |}.

Definition scenario_b_table : RawTable :=
  {| has_end := false; has_dur := true; has_other := true;
     rows := [task "2024-05-01" "08:00:00" 2700 "Briefing";
              task "2024-05-01" "08:00:00" 1800 "Warmup"] |}.

Definition scenario_b_base : list Base :=
  [{| b_date := 19844; b_start := 8 * 3600 * second; b_dur := 2700; b_act := "Briefing" |};
   {| b_date := 19844; b_start := 8 * 3600 * second; b_dur := 1800; b_act := "Warmup" |}].

End Fixtures.

(* ------------------------------------------------------------------ *)
(** ** Clock times and displayed spans: [parse_time_str], [human_td] *)

Module TimeOfDay.
Import PyStr Duration.

(** [datetime.strptime(s, fmt)] matches [s] against the regular expression
    of [fmt], where [%H] is [2[0-3]|[0-1]\d|\d], [%M] is [[0-5]\d|\d] and
    [%S] is [6[0-1]|[0-5]\d|\d], and raises when text remains after the
    match. As the components are digits and the separators are ':', a
    match consumes exactly the text between two colons; these are the
    three component regexes on such a piece, with the value [int] gives. *)
Definition re_H (p : list ascii) : option Z :=
  match p with
  | [a; b] =>
      if is_digit a && is_digit b &&
         (((digit_value a =? 2) && (digit_value b <=? 3)) || (digit_value a <=? 1))
      then Some (digit_value a * 10 + digit_value b) else None
  | [a] => if is_digit a then Some (digit_value a) else None
  | _ => None
  end.

Definition re_M (p : list ascii) : option Z :=
  match p with
  | [a; b] =>
      if is_digit a && is_digit b && (digit_value a <=? 5)
      then Some (digit_value a * 10 + digit_value b) else None
  | [a] => if is_digit a then Some (digit_value a) else None
  | _ => None
  end.

Definition re_S (p : list ascii) : option Z :=
  match p with
  | [a; b] =>
      if is_digit a && is_digit b &&
         (((digit_value a =? 6) && (digit_value b <=? 1)) || (digit_value a <=? 5))
      then Some (digit_value a * 10 + digit_value b) else None
  | [a] => if is_digit a then Some (digit_value a) else None
  | _ => None
  end.

(** [parse_time_str(s)]: "%H:%M:%S" is tried first, then "%H:%M"; a
    seconds field of 60 or 61 passes the regex but makes the [datetime]
    constructor raise [ValueError], and each format only matches its own
    number of fields. The result is (hour, minute, second). *)
Definition parse_time_chars (l : list ascii) : option (Z * Z * Z) :=
  match split_colon (strip l) with
  | [ph; pm; ps] =>
      match re_H ph, re_M pm, re_S ps with
      | Some h, Some m, Some s => if s <=? 59 then Some (h, m, s) else None
      | _, _, _ => None
      end
  | [ph; pm] =>
      match re_H ph, re_M pm with
      | Some h, Some m => Some (h, m, 0)
      | _, _ => None
      end
  | _ => None
  end.

Definition parse_time_str (s : string) : option (Z * Z * Z) :=
  parse_time_chars (list_ascii_of_string s).

(** [t.strftime("%H:%M:%S")] *)
Definition strftime_hms (t : Z * Z * Z) : string :=
  let '(h, m, s) := t in hms_text h m s.

Section WithRounding.
(** [int(td.total_seconds())] for a span [td = abs(...)] of [us >= 0]
    microseconds: the float quotient of the span by one second, truncated.
    Its rounding depends on the type of [td] (a pandas [Timedelta] at its
    resolution, or a [datetime.timedelta]), so it is left abstract; the
    truncation of a non-negative float is a natural number. *)
Variable whole_seconds : Z -> N.

(** [human_td(td)] for a span of [us] microseconds; the sign of
    [td.total_seconds()] is the sign of the span. *)
Definition human_td_chars (us : Z) : list ascii :=
  let sign := if us <? 0 then ["-"%char] else [] in
  let secs := Z.of_N (whole_seconds (Z.abs us)) in
  let h := secs / 3600 in
  let rem := secs mod 3600 in
  let m := rem / 60 in
  let s := rem mod 60 in
  if negb (h =? 0) then sign ++ fmt02 h ++ [":"%char] ++ fmt02 m ++ [":"%char] ++ fmt02 s
  else sign ++ fmt02 m ++ [":"%char] ++ fmt02 s.

Definition human_td (us : Z) : string := string_of_list_ascii (human_td_chars us).

End WithRounding.

(** The exact number of whole seconds of a non-negative span, which the
    float computation gives on short spans. *)
Definition exact_seconds (us : Z) : N := Z.to_N (us / 1000000).

End TimeOfDay.

(* ------------------------------------------------------------------ *)
(** ** Task list: the "Adicionar" form and the linked editor *)

Module Editor.
Import PyStr Duration Normalize TimeOfDay.

(** [str(x).strip()] on a text cell. *)
Definition strip_str (s : string) : string :=
  string_of_list_ascii (strip (list_ascii_of_string s)).

Definition is_empty (s : string) : bool := String.eqb s "".

(** An entry of [st.session_state.tasks]. *)
Record Task := { t_date : string; t_start : string; t_dur : Z; t_act : string }.

(** A row of the data editor: the text of its Date, Start, Duration and
    Activity cells. *)
Record EditRow := { e_date : string; e_start : string; e_duration : string; e_act : string }.

(** The message appended to [errors] for a row. *)
Inductive RowError := EmptyFields | BadDate | BadStart | BadDuration.

Section WithDates.
(** The date type, [datetime.fromisoformat(s).date()] ([None] is the
    [ValueError]) and [date.isoformat()]. *)
Context {Date : Type}.
(** The index labels of the edited DataFrame. *)
Context {Label : Type}.
Variable from_iso : string -> option Date.
Variable iso : Date -> string.

(** One iteration of the loop of the save button. *)
Definition save_row (r : EditRow) : RowError + Task :=
  let date_s := strip_str (e_date r) in
  let start_s := strip_str (e_start r) in
  let dur_s := strip_str (e_duration r) in
  let act := strip_str (e_act r) in
  if is_empty date_s || is_empty start_s || is_empty dur_s || is_empty act
  then inl EmptyFields
  else
    match from_iso date_s with
    | None => inl BadDate
    | Some d =>
        match parse_time_str start_s with
        | None => inl BadStart
        | Some t =>
            match parse_duration_hms dur_s with
            | None => inl BadDuration
            | Some dur =>
                inr {| t_date := iso d; t_start := strftime_hms t;
                       t_dur := dur; t_act := act |}
            end
        end
    end.

(** The loop over [edited.iterrows()], which yields each row with its
    index label [i]: the pairs of [errors] (label and message) and
    [new_tasks]. *)
Fixpoint save_go (rows : list (Label * EditRow)) : list (Label * RowError) * list Task :=
  match rows with
  | [] => ([], [])
  | (i, r) :: rest =>
      let '(errs, ts) := save_go rest in
      match save_row r with
      | inl e => ((i, e) :: errs, ts)
      | inr t => (errs, t :: ts)
      end
  end.

(** The errors shown, or the new task list. *)
Definition save_rows (rows : list (Label * EditRow)) : list (Label * RowError) + list Task :=
  let '(errs, ts) := save_go rows in
  match errs with [] => inr ts | _ :: _ => inl errs end.

(** [st.session_state.tasks] after a click on the save button. *)
Definition save_click (tasks : list Task) (rows : list (Label * EditRow)) : list Task :=
  match save_rows rows with inr ts => ts | inl _ => tasks end.

(** The "Adicionar" button for date [d] and the three text inputs. *)
Definition add_task (d : Date) (start_s dur_s activity : string) : RowError + Task :=
  if is_empty (strip_str activity) then inl EmptyFields
  else
    match parse_time_str start_s with
    | None => inl BadStart
    | Some t =>
        match parse_duration_hms dur_s with
        | None => inl BadDuration
        | Some dur =>
            inr {| t_date := iso d; t_start := strftime_hms t;
                   t_dur := dur; t_act := strip_str activity |}
        end
    end.

Definition add_click (tasks : list Task) (d : Date) (start_s dur_s activity : string)
  : list Task :=
  match add_task d start_s dur_s activity with
  | inr t => tasks ++ [t]
  | inl _ => tasks
  end.

End WithDates.

(** [pd.DataFrame(tasks)]: no "End" column, a "DurationSec" column of ints. *)
Definition task_raw (t : Task) : RawRow :=
  {| r_date := t_date t; r_start := t_start t; r_end := "";
     r_dur := CInt (t_dur t); r_act := t_act t |}.

Definition tasks_table (ts : list Task) : RawTable :=
  {| has_end := false; has_dur := true; has_other := true; rows := map task_raw ts |}.

(** A row of [raw] with its "Duration" column
    [duration_to_hms(timedelta(seconds=int(s)))]. *)
Definition editor_row (n : NormRow) : EditRow :=
  {| e_date := n_date n; e_start := n_start n;
     e_duration := duration_to_hms (n_dur n); e_act := n_act n |}.

(** The table handed to [st.data_editor], with the index labels
    [0, 1, ...] that [reset_index()] gives it. *)
Definition editor_rows (to_dt : string -> option Z) (ts : list Task) : list (nat * EditRow) :=
  let es := map editor_row (normalize_tasks to_dt (tasks_table ts)) in
  combine (seq 0 (List.length es)) es.

End Editor.

(* ------------------------------------------------------------------ *)
(** ** KPIs *)

Module Kpi.
Import Schedule Classify TimeOfDay.

(** [view[view["Status"] == st].iloc[0]], or [None] when empty. *)
Fixpoint first_with (st : Status) (rs : list Sched) (cls : list Status) : option Sched :=
  match rs, cls with
  | r :: rs', c :: cls' => if status_eqb st c then Some r else first_with st rs' cls'
  | _, _ => None
  end.

Definition current_row (now : Z) (rs : list Sched) : option Sched :=
  first_with Running rs (classify_rows now rs).

Definition next_row (now : Z) (rs : list Sched) : option Sched :=
  first_with Next rs (classify_rows now rs).

Section WithRounding.
(** [int(td.total_seconds())] inside [human_td], as in [TimeOfDay]. *)
Variable whole_seconds : Z -> N.

(** "Tempo p/ acabar" and "Tempo p/ próxima" ([None] is the dash). *)
Definition time_to_finish (now : Z) (rs : list Sched) : option string :=
  option_map (fun r => human_td whole_seconds (s_end r - now)) (current_row now rs).

Definition time_to_next (now : Z) (rs : list Sched) : option string :=
  option_map (fun r => human_td whole_seconds (s_start r - now)) (next_row now rs).

End WithRounding.

(** [int((view['Status']==STATUS_DONE).sum())] *)
Definition completed (now : Z) (rs : list Sched) : nat :=
  count_status Done (classify_rows now rs).

End Kpi.

(** The shape of a task the add and save paths store: an ISO date text, an
    [HH:MM:SS] clock time, a duration a [timedelta] can hold that is not
    negative, and a non-empty activity without surrounding whitespace. *)
Module TaskProps.
Import PyStr Duration Editor.

Definition canonical_task {Date : Type} (iso : Date -> string) (t : Task) : Prop :=
  (exists d, t_date t = iso d) /\
  (exists h m s, t_start t = hms_text h m s /\
                 0 <= h <= 23 /\ 0 <= m <= 59 /\ 0 <= s <= 59) /\
  0 <= t_dur t <= td_max_seconds /\
  strip_str (t_act t) = t_act t /\ t_act t <> ""%string.

End TaskProps.

(** Concrete dates for the editor: a one-day calendar. *)
Module EditorFixtures.
Import Duration Editor.

Definition test_from_iso (s : string) : option unit :=
  if String.eqb s "2024-05-01" then Some tt else None.
Definition test_iso (d : unit) : string := "2024-05-01".

Definition sample_task : Task :=
  {| t_date := "2024-05-01"; t_start := hms_text 8 0 0; t_dur := 2700; t_act := "Briefing" |}.

Definition sample_row (start dur : string) : EditRow :=
  {| e_date := " 2024-05-01"; e_start := start; e_duration := dur; e_act := " Briefing " |}.

End EditorFixtures.

(* ================================================================== *)
(** * Proofs *)

(** ** Duration parser and formatter *)

Module DurationFacts.
Import PyStr Duration Props.

Example parse_two_part : parse_duration_hms "90:00" = Some 5400.
Proof. reflexivity. Qed.
Example parse_spaces : parse_duration_hms " 01:02:03 " = Some 3723.
Proof. reflexivity. Qed.
Example parse_bad_seconds : parse_duration_hms "01:60" = None.
Proof. reflexivity. Qed.
Example parse_negative_minutes : parse_duration_hms "-1:30" = None.
Proof. reflexivity. Qed.
Example parse_underscore : parse_duration_hms "1_0:00" = Some 600.
Proof. reflexivity. Qed.
Example fmt_example : duration_to_hms 3723 = "01:02:03"%string.
Proof. reflexivity. Qed.
Example fmt_long : duration_to_hms 360000 = "100:00:00"%string.
Proof. reflexivity. Qed.


Lemma nat_of_digit_char (d : Z) :
  0 <= d < 10 -> nat_of_ascii (digit_char d) = (48 + Z.to_nat d)%nat.
Proof.
  intros Hd. unfold digit_char. apply nat_ascii_embedding. lia.
Qed.

Lemma digit_char_props (d : Z) : 0 <= d < 10 ->
  is_digit (digit_char d) = true /\ digit_value (digit_char d) = d /\
  is_py_space (digit_char d) = false /\ is_colon (digit_char d) = false /\
  is_minus (digit_char d) = false /\ is_plus (digit_char d) = false.
Proof.
  intros Hd.
  assert (Hcases : d = 0 \/ d = 1 \/ d = 2 \/ d = 3 \/ d = 4 \/ d = 5 \/
                   d = 6 \/ d = 7 \/ d = 8 \/ d = 9) by lia.
  repeat destruct Hcases as [-> | Hcases]; subst; repeat split; reflexivity.
Qed.

Lemma digits_of_spec (f : nat) (n : Z) :
  0 <= n < Z.of_nat f ->
  digits_of f n <> [] /\ Forall is_dec_digit (digits_of f n) /\
  dec_value (digits_of f n) 0 = n.
Proof.
  revert n; induction f as [|f IH]; intros n Hn; [lia|].
  simpl. destruct (Z.ltb_spec n 10) as [Hlt|Hge].
  - split; [discriminate|]. split; [|reflexivity].
    constructor; [unfold is_dec_digit; lia | constructor].
  - assert (Hq : 0 <= n / 10 < Z.of_nat f).
    { split; [apply Z.div_pos; lia|].
      assert (n / 10 < n) by (apply Z.div_lt; lia). lia. }
    destruct (IH (n / 10) Hq) as [Hne [Hall Hval]].
    repeat split.
    + destruct (digits_of f (n / 10)); [contradiction | discriminate].
    + apply Forall_app; split; [exact Hall|].
      constructor; [unfold is_dec_digit; apply Z.mod_pos_bound; lia | constructor].
    + unfold dec_value in *. rewrite fold_left_app. simpl. rewrite Hval.
      pose proof (Z.div_mod n 10). lia.
Qed.

Lemma digits_tail_map (ds : list Z) (acc : Z) :
  Forall is_dec_digit ds ->
  digits_tail acc (map digit_char ds) = Some (dec_value ds acc).
Proof.
  revert acc; induction ds as [|d ds IH]; intros acc Hall; [reflexivity|].
  inversion Hall as [|? ? Hd Hrest]; subst.
  destruct (digit_char_props d Hd) as [Hdig [Hval _]].
  cbn [map digits_tail]. rewrite Hdig, Hval. apply IH; exact Hrest.
Qed.

Lemma dec_value_zeros (k : nat) (ds : list Z) :
  dec_value (List.repeat 0 k ++ ds) 0 = dec_value ds 0.
Proof.
  unfold dec_value. rewrite fold_left_app. f_equal.
  induction k as [|k IH]; [reflexivity|]. simpl. exact IH.
Qed.

(** [fmt02 n] is the digit list of [n] behind its padding zeros. *)
Lemma fmt02_digits (n : Z) : 0 <= n ->
  exists ds, fmt02 n = map digit_char ds /\ ds <> [] /\
             Forall is_dec_digit ds /\ dec_value ds 0 = n.
Proof.
  intros Hn.
  destruct (digits_of_spec (S (Z.to_nat n)) n) as [Hne [Hall Hval]]; [lia|].
  set (k := (2 - List.length (show_nat n))%nat).
  exists (List.repeat 0 k ++ digits_of (S (Z.to_nat n)) n).
  repeat split.
  - unfold fmt02, show_nat. fold k. rewrite map_app. f_equal.
    unfold k, show_nat. generalize (2 - List.length (map digit_char (digits_of (S (Z.to_nat n)) n)))%nat.
    intros j. induction j as [|j IHj]; [reflexivity|]. simpl. rewrite IHj. reflexivity.
  - intros Habs. apply app_eq_nil in Habs. destruct Habs as [_ Habs]. contradiction.
  - apply Forall_app; split; [|exact Hall].
    apply Forall_forall. intros x Hx. apply repeat_spec in Hx. subst. unfold is_dec_digit; lia.
  - rewrite dec_value_zeros. exact Hval.
Qed.

Lemma no_space_digits (ds : list Z) :
  Forall is_dec_digit ds ->
  Forall (fun c => is_py_space c = false) (map digit_char ds).
Proof.
  intros Hall. apply Forall_map. eapply Forall_impl; [|exact Hall].
  intros d Hd. apply (digit_char_props d Hd).
Qed.

Lemma no_colon_digits (ds : list Z) :
  Forall is_dec_digit ds ->
  Forall (fun c => is_colon c = false) (map digit_char ds).
Proof.
  intros Hall. apply Forall_map. eapply Forall_impl; [|exact Hall].
  intros d Hd. apply (digit_char_props d Hd).
Qed.

Lemma drop_space_id (l : list ascii) :
  match l with c :: _ => is_py_space c = false | [] => True end ->
  drop_space l = l.
Proof. destruct l as [|c r]; simpl; [reflexivity|]. intros H; rewrite H; reflexivity. Qed.

Lemma strip_id (l : list ascii) :
  Forall (fun c => is_py_space c = false) l -> strip l = l.
Proof.
  intros Hall. unfold strip.
  rewrite (drop_space_id l) by (destruct l; [exact I | inversion Hall; assumption]).
  rewrite (drop_space_id (rev l)); [apply rev_involutive|].
  assert (Hr : Forall (fun c => is_py_space c = false) (rev l)) by (apply Forall_rev; exact Hall).
  destruct (rev l); [exact I | inversion Hr; assumption].
Qed.

Lemma py_int_digits (ds : list Z) :
  ds <> [] -> Forall is_dec_digit ds ->
  py_int (map digit_char ds) = Some (dec_value ds 0).
Proof.
  intros Hne Hall. unfold py_int.
  rewrite strip_id by (apply no_space_digits; exact Hall).
  destruct ds as [|d ds]; [contradiction|].
  inversion Hall as [|? ? Hd Hrest]; subst.
  destruct (digit_char_props d Hd) as [Hdig [Hval [_ [_ [Hmin Hplus]]]]].
  cbn [map]. rewrite Hmin, Hplus. unfold dec_literal. rewrite Hdig, Hval.
  rewrite digits_tail_map by exact Hrest.
  unfold dec_value. simpl. f_equal.
Qed.

Lemma py_int_fmt02 (n : Z) : 0 <= n -> py_int (fmt02 n) = Some n.
Proof.
  intros Hn. destruct (fmt02_digits n Hn) as [ds [Heq [Hne [Hall Hval]]]].
  rewrite Heq, py_int_digits by assumption. rewrite Hval. reflexivity.
Qed.

Lemma split_go_app (a r cur : list ascii) :
  Forall (fun c => is_colon c = false) a ->
  split_go cur (a ++ r) = split_go (rev a ++ cur) r.
Proof.
  revert cur; induction a as [|x a IH]; intros cur Hall; [reflexivity|].
  inversion Hall as [|? ? Hx Hrest]; subst.
  simpl. rewrite Hx, IH by exact Hrest. rewrite <- app_assoc. reflexivity.
Qed.

Lemma fmt02_no_colon (n : Z) : 0 <= n ->
  Forall (fun c => is_colon c = false) (fmt02 n).
Proof.
  intros Hn. destruct (fmt02_digits n Hn) as [ds [Heq [_ [Hall _]]]].
  rewrite Heq. apply no_colon_digits; exact Hall.
Qed.

Lemma fmt02_no_space (n : Z) : 0 <= n ->
  Forall (fun c => is_py_space c = false) (fmt02 n).
Proof.
  intros Hn. destruct (fmt02_digits n Hn) as [ds [Heq [_ [Hall _]]]].
  rewrite Heq. apply no_space_digits; exact Hall.
Qed.

Lemma split_hms (h m s : Z) : 0 <= h -> 0 <= m -> 0 <= s ->
  split_colon (fmt02 h ++ [":"%char] ++ fmt02 m ++ [":"%char] ++ fmt02 s)
  = [fmt02 h; fmt02 m; fmt02 s].
Proof.
  intros Hh Hm Hs. unfold split_colon.
  rewrite split_go_app by (apply fmt02_no_colon; exact Hh). simpl.
  rewrite app_nil_r, rev_involutive.
  rewrite split_go_app by (apply fmt02_no_colon; exact Hm). simpl.
  rewrite app_nil_r, rev_involutive.
  rewrite <- (app_nil_r (fmt02 s)).
  rewrite split_go_app by (apply fmt02_no_colon; exact Hs). simpl.
  rewrite ?app_nil_r, ?rev_involutive, ?app_nil_r. reflexivity.
Qed.

Lemma strip_hms (h m s : Z) : 0 <= h -> 0 <= m -> 0 <= s ->
  strip (fmt02 h ++ [":"%char] ++ fmt02 m ++ [":"%char] ++ fmt02 s)
  = fmt02 h ++ [":"%char] ++ fmt02 m ++ [":"%char] ++ fmt02 s.
Proof.
  intros Hh Hm Hs. apply strip_id.
  pose proof (fmt02_no_space h Hh). pose proof (fmt02_no_space m Hm).
  pose proof (fmt02_no_space s Hs).
  assert (Hc : Forall (fun c => is_py_space c = false) [":"%char])
    by (constructor; [reflexivity | constructor]).
  do 4 (apply Forall_app; split; [assumption|]). assumption.
Qed.

(** Parsing the [HH:MM:SS] text of three components with a seconds
    component below 60 gives back their total, whatever the minutes. *)
Lemma parse_hms_text (h m s : Z) :
  0 <= h -> 0 <= m -> 0 <= s < 60 -> h * 3600 + m * 60 + s <= td_max_seconds ->
  parse_duration_hms (hms_text h m s) = Some (h * 3600 + m * 60 + s).
Proof.
  intros Hh Hm Hs Hmax.
  unfold parse_duration_hms, hms_text, parse_duration_hms_chars.
  rewrite list_ascii_of_string_of_list_ascii.
  rewrite strip_hms, split_hms by lia. cbn [ints_of_parts].
  rewrite !py_int_fmt02 by lia. cbn [option_map].
  destruct (Z.ltb_spec h 0); [lia|]. destruct (Z.ltb_spec m 0); [lia|].
  destruct (Z.leb_spec 0 s); [|lia]. destruct (Z.ltb_spec s 60); [|lia].
  simpl. unfold timedelta_of. destruct (Z.leb_spec (h * 3600 + m * 60 + s) td_max_seconds); [reflexivity|lia].
Qed.

Lemma duration_to_hms_text (d : Z) : 0 <= d ->
  duration_to_hms d = hms_text (d / 3600) ((d mod 3600) / 60) ((d mod 3600) mod 60).
Proof.
  intros Hd. unfold duration_to_hms, duration_to_hms_chars, hms_text.
  rewrite Z.max_r by exact Hd. reflexivity.
Qed.

(** C9: [parse_duration_hms(duration_to_hms(d)) == d] for every whole
    number of seconds [d >= 0] that a [timedelta] can hold. *)
Theorem duration_roundtrip (d : Z) :
  0 <= d <= td_max_seconds ->
  parse_duration_hms (duration_to_hms d) = Some d.
Proof.
  intros Hd. rewrite duration_to_hms_text by lia.
  pose proof (Z.div_mod d 3600 ltac:(lia)) as E1.
  pose proof (Z.mod_pos_bound d 3600 ltac:(lia)) as B1.
  pose proof (Z.div_mod (d mod 3600) 60 ltac:(lia)) as E2.
  pose proof (Z.mod_pos_bound (d mod 3600) 60 ltac:(lia)) as B2.
  assert (Hh : 0 <= d / 3600) by (apply Z.div_pos; lia).
  assert (Hm : 0 <= (d mod 3600) / 60) by (apply Z.div_pos; lia).
  assert (Htot : d / 3600 * 3600 + d mod 3600 / 60 * 60 + d mod 3600 mod 60 = d) by lia.
  rewrite parse_hms_text by lia. rewrite Htot. reflexivity.
Qed.

Lemma duration_roundtrip_witness :
  (0 <= 5400 <= td_max_seconds) /\ parse_duration_hms (duration_to_hms 5400) = Some 5400.
Proof.
  split; [unfold td_max_seconds; lia|].
  apply (duration_roundtrip 5400). unfold td_max_seconds; lia.
Defined.

(** C6 (as stated, refuted): the three-part form does not bound its middle
    component: "00:60:00" is accepted as one hour. *)
Lemma parse_three_part_minutes_60 : parse_duration_hms "00:60:00" = Some 3600.
Proof. reflexivity. Qed.

(** C6 (amended): an accepted duration has two integer parts [m:s] with
    [m >= 0] and [0 <= s < 60], or three integer parts [h:m:s] with
    [h >= 0], [m >= 0] and [0 <= s < 60], and is their total in seconds,
    at most [timedelta.max]; the minutes are unbounded in both forms: every
    such three-part text is accepted (up to [timedelta.max]). *)
Theorem parse_duration_hms_bounds :
  (forall (str : string) (d : Z),
      parse_duration_hms str = Some d ->
      (exists m s, ints_of_parts (split_colon (strip (list_ascii_of_string str))) = Some [m; s]
                   /\ 0 <= m /\ 0 <= s < 60 /\ d = m * 60 + s /\ d <= td_max_seconds) \/
      (exists h m s, ints_of_parts (split_colon (strip (list_ascii_of_string str))) = Some [h; m; s]
                   /\ 0 <= h /\ 0 <= m /\ 0 <= s < 60 /\ d = h * 3600 + m * 60 + s
                   /\ d <= td_max_seconds)) /\
  (forall h m s : Z,
      0 <= h -> 0 <= m -> 0 <= s < 60 -> h * 3600 + m * 60 + s <= td_max_seconds ->
      parse_duration_hms (hms_text h m s) = Some (h * 3600 + m * 60 + s)).
Proof.
  split; [|exact parse_hms_text].
  intros str d. unfold parse_duration_hms, parse_duration_hms_chars.
  destruct (ints_of_parts (split_colon (strip (list_ascii_of_string str))))
    as [[|a [|b [|c [|e rest]]]]|]; try discriminate.
  - destruct (Z.ltb_spec a 0); [discriminate|].
    destruct (Z.leb_spec 0 b); destruct (Z.ltb_spec b 60); try discriminate.
    unfold timedelta_of. destruct (Z.leb_spec (a * 60 + b) td_max_seconds); [|discriminate].
    intros Heq; injection Heq as <-. left. exists a, b. repeat split; lia.
  - destruct (Z.ltb_spec a 0); [discriminate|]. destruct (Z.ltb_spec b 0); [discriminate|].
    destruct (Z.leb_spec 0 c); destruct (Z.ltb_spec c 60); try discriminate.
    unfold timedelta_of.
    destruct (Z.leb_spec (a * 3600 + b * 60 + c) td_max_seconds); [|discriminate].
    intros Heq; injection Heq as <-. right. exists a, b, c. repeat split; lia.
Qed.

End DurationFacts.

(** ** Classifier *)

Module ClassifyFacts.
Import Schedule Classify Props Fixtures.


(** Scenario C: before everything, the earliest row is the next one. *)
Example scenario_c :
  classify_rows 0 [mk_sched 10 20; mk_sched 30 40; mk_sched 50 60] = [Next; Upcoming; Upcoming].
Proof. reflexivity. Qed.
Example scenario_mixed :
  classify_rows 35 [mk_sched 10 20; mk_sched 30 40; mk_sched 50 60; mk_sched 70 70]
  = [Done; Running; Next; Upcoming].
Proof. reflexivity. Qed.

Lemma promote_first_nth (l : list Status) (i : nat) (x : Status) :
  nth_error l i = Some x ->
  nth_error (promote_first l) i =
  Some (match x with
        | Upcoming => if existsb (status_eqb Upcoming) (firstn i l) then Upcoming else Next
        | _ => x
        end).
Proof.
  revert i; induction l as [|y l IH]; intros i Hi; [destruct i; discriminate|].
  destruct i as [|i]; simpl in Hi.
  - injection Hi as <-. destruct y; reflexivity.
  - destruct y; simpl; try (apply IH; exact Hi).
    rewrite Hi. destruct x; reflexivity.
Qed.

Lemma existsb_firstn_iff {A} (p : A -> bool) (l : list A) (i : nat) :
  existsb p (firstn i l) = true <->
  exists j y, (j < i)%nat /\ nth_error l j = Some y /\ p y = true.
Proof.
  revert i; induction l as [|a l IH]; intros i.
  - rewrite firstn_nil. split; [discriminate|].
    intros [j [y [_ [H _]]]]. destruct j; discriminate.
  - destruct i as [|i].
    + simpl. split; [discriminate|]. intros [j [y [Hj _]]]. lia.
    + simpl. rewrite orb_true_iff, IH. split.
      * intros [Ha | [j [y [Hj [Hn Hp]]]]].
        -- exists O, a. repeat split; [lia | exact Ha].
        -- exists (S j), y. repeat split; [lia | exact Hn | exact Hp].
      * intros [[|j] [y [Hj [Hn Hp]]]].
        -- simpl in Hn. injection Hn as <-. left; exact Hp.
        -- right. exists j, y. repeat split; [lia | exact Hn | exact Hp].
Qed.

Lemma classify_rows_nth (now : Z) (rs : list Sched) (i : nat) (r : Sched) :
  nth_error rs i = Some r ->
  nth_error (classify_rows now rs) i =
  Some (match stat now r with
        | Upcoming =>
            if existsb (status_eqb Upcoming) (firstn i (map (stat now) rs))
            then Upcoming else Next
        | st => st
        end).
Proof.
  intros Hi. unfold classify_rows.
  rewrite (promote_first_nth (map (stat now) rs) i (stat now r));
    [destruct (stat now r); reflexivity|].
  rewrite nth_error_map, Hi. reflexivity.
Qed.

Lemma stat_cases (now : Z) (r : Sched) :
  (stat now r = Done <-> s_end r <= now) /\
  (stat now r = Running <-> s_start r <= now < s_end r) /\
  (stat now r = Upcoming <-> ~ (s_end r <= now) /\ ~ (s_start r <= now < s_end r)).
Proof.
  unfold stat.
  destruct (Z.leb_spec (s_end r) now); simpl.
  - repeat split; try discriminate; try lia; intros [H1 H2]; lia.
  - destruct (Z.leb_spec (s_start r) now); destruct (Z.ltb_spec now (s_end r)); simpl;
      repeat split; try discriminate; try lia; try (intros [H1 H2]; lia); tauto.
Qed.

(** C2: [Done] exactly when [End <= now], [Running] exactly when
    [Start <= now < End]; the remaining rows are tentatively upcoming, and
    exactly the first of them (in row order) becomes [Next]. *)
Theorem classify_rows_status (now : Z) (rs : list Sched) (i : nat) (r : Sched) :
  nth_error rs i = Some r ->
  exists st, nth_error (classify_rows now rs) i = Some st /\
    (st = Done <-> s_end r <= now) /\
    (st = Running <-> s_start r <= now < s_end r) /\
    (st = Next <-> stat now r = Upcoming /\
                   forall j r', (j < i)%nat -> nth_error rs j = Some r' -> stat now r' <> Upcoming) /\
    (st = Upcoming <-> stat now r = Upcoming /\
                       exists j r', (j < i)%nat /\ nth_error rs j = Some r' /\ stat now r' = Upcoming).
Proof.
  intros Hi. rewrite (classify_rows_nth now rs i r Hi).
  eexists; split; [reflexivity|].
  destruct (stat_cases now r) as [HD [HR HU]].
  assert (Hex : existsb (status_eqb Upcoming) (firstn i (map (stat now) rs)) = true <->
                exists j r', (j < i)%nat /\ nth_error rs j = Some r' /\ stat now r' = Upcoming).
  { rewrite existsb_firstn_iff. split.
    - intros [j [y [Hj [Hn Hp]]]]. rewrite nth_error_map in Hn.
      destruct (nth_error rs j) as [r'|] eqn:E; [|discriminate].
      injection Hn as Hy. exists j, r'. split; [exact Hj|]. split; [exact E|].
      rewrite Hy. destruct y; try discriminate; reflexivity.
    - intros [j [r' [Hj [Hn Hp]]]]. exists j, (stat now r'). repeat split; [exact Hj | |].
      + rewrite nth_error_map, Hn. reflexivity.
      + rewrite Hp. reflexivity. }
  destruct (stat now r) eqn:Es.
  - split; [exact HD|]. split; [exact HR|].
    split; split; intros H; try discriminate; destruct H; discriminate.
  - split; [exact HD|]. split; [exact HR|].
    split; split; intros H; try discriminate; destruct H; discriminate.
  - exfalso. unfold stat in Es.
    destruct (s_end r <=? now); [discriminate|].
    destruct (_ && _); discriminate.
  - destruct (existsb (status_eqb Upcoming) (firstn i (map (stat now) rs))) eqn:Eb.
    + split; [exact HD|]. split; [exact HR|]. split; split.
      * discriminate.
      * intros [_ Hall]. destruct (proj1 Hex eq_refl) as [j [r' [Hj [Hn Hp]]]].
        exfalso. exact (Hall j r' Hj Hn Hp).
      * intros _. split; [reflexivity|]. exact (proj1 Hex eq_refl).
      * intros _. reflexivity.
    + destruct (proj1 HU eq_refl) as [HnD HnR].
      split; [split; [discriminate | intros H; contradiction]|].
      split; [split; [discriminate | intros H; contradiction]|].
      split; split.
      * intros _. split; [reflexivity|]. intros j r' Hj Hn Hp.
        assert (Hc : false = true) by (apply Hex; exists j, r'; auto).
        discriminate.
      * intros _. reflexivity.
      * discriminate.
      * intros [_ Hx]. apply Hex in Hx. congruence.
Qed.

Lemma classify_rows_status_witness :
  nth_error [mk_sched 10 20; mk_sched 30 40] 1 = Some (mk_sched 30 40) /\
  exists st, nth_error (classify_rows 35 [mk_sched 10 20; mk_sched 30 40]) 1 = Some st /\
    (st = Done <-> s_end (mk_sched 30 40) <= 35) /\
    (st = Running <-> s_start (mk_sched 30 40) <= 35 < s_end (mk_sched 30 40)) /\
    (st = Next <-> stat 35 (mk_sched 30 40) = Upcoming /\
        forall j r', (j < 1)%nat -> nth_error [mk_sched 10 20; mk_sched 30 40] j = Some r' ->
                     stat 35 r' <> Upcoming) /\
    (st = Upcoming <-> stat 35 (mk_sched 30 40) = Upcoming /\
        exists j r', (j < 1)%nat /\ nth_error [mk_sched 10 20; mk_sched 30 40] j = Some r' /\
                     stat 35 r' = Upcoming).
Proof.
  split; [reflexivity|].
  apply (classify_rows_status 35 [mk_sched 10 20; mk_sched 30 40] 1 (mk_sched 30 40)).
  reflexivity.
Defined.


Lemma count_running_promote (l : list Status) :
  count_status Running (promote_first l) = count_status Running l.
Proof.
  induction l as [|y l IH]; [reflexivity|].
  destruct y; unfold count_status in *; simpl; try rewrite IH; reflexivity.
Qed.

Lemma count_next_promote (l : list Status) :
  count_status Next l = O -> (count_status Next (promote_first l) <= 1)%nat.
Proof.
  induction l as [|y l IH]; intros H; [simpl; lia|].
  destruct y; unfold count_status in *; simpl in *; try discriminate;
    try (apply IH; exact H). rewrite H. lia.
Qed.

Lemma count_next_stat (now : Z) (rs : list Sched) :
  count_status Next (map (stat now) rs) = O.
Proof.
  induction rs as [|r rs IH]; [reflexivity|].
  unfold count_status in *. cbn [map filter].
  assert (Hs : status_eqb Next (stat now r) = false).
  { unfold stat. destruct (s_end r <=? now); [reflexivity|].
    destruct (_ && _); reflexivity. }
  rewrite Hs. exact IH.
Qed.

Lemma running_iff (now : Z) (r : Sched) :
  stat now r = Running <-> s_start r <= now < s_end r.
Proof. apply (stat_cases now r). Qed.

Lemma count_running_none (now : Z) (rs : list Sched) :
  Forall (fun b => stat now b <> Running) rs ->
  count_status Running (map (stat now) rs) = O.
Proof.
  induction 1 as [|b rs Hb _ IH]; [reflexivity|].
  unfold count_status in *. cbn [map filter].
  destruct (stat now b); try (exact IH); contradiction.
Qed.

Lemma count_running_stat (now : Z) (rs : list Sched) :
  ForallOrdPairs disjoint rs ->
  (count_status Running (map (stat now) rs) <= 1)%nat.
Proof.
  induction 1 as [|a rs Ha _ IH]; [unfold count_status; simpl; lia|].
  destruct (stat now a) eqn:Ea; unfold count_status in *; cbn [map filter]; rewrite Ea;
    cbn [status_eqb List.length]; try exact IH.
  assert (Hnone : Forall (fun b => stat now b <> Running) rs).
  { eapply Forall_impl; [|exact Ha]. intros b Hab Hb.
    apply running_iff in Ea. apply running_iff in Hb.
    unfold disjoint in Hab. lia. }
  pose proof (count_running_none now rs Hnone) as H0.
  unfold count_status in H0. rewrite H0. lia.
Qed.

(** C3: when the rows' intervals are pairwise disjoint, at most one row is
    [Running], at most one is [Next], and no row is both. *)
Theorem classify_rows_at_most_one (now : Z) (rs : list Sched) :
  ForallOrdPairs disjoint rs ->
  (count_status Running (classify_rows now rs) <= 1)%nat /\
  (count_status Next (classify_rows now rs) <= 1)%nat /\
  (forall i j, nth_error (classify_rows now rs) i = Some Running ->
               nth_error (classify_rows now rs) j = Some Next -> i <> j).
Proof.
  intros Hdis. unfold classify_rows. split; [|split].
  - rewrite count_running_promote. apply count_running_stat; exact Hdis.
  - apply count_next_promote, count_next_stat.
  - intros i j Hi Hj <-. congruence.
Qed.

Lemma classify_rows_at_most_one_witness :
  ForallOrdPairs disjoint [mk_sched 10 20; mk_sched 30 40] /\
  (count_status Running (classify_rows 15 [mk_sched 10 20; mk_sched 30 40]) <= 1)%nat /\
  (count_status Next (classify_rows 15 [mk_sched 10 20; mk_sched 30 40]) <= 1)%nat /\
  (forall i j, nth_error (classify_rows 15 [mk_sched 10 20; mk_sched 30 40]) i = Some Running ->
               nth_error (classify_rows 15 [mk_sched 10 20; mk_sched 30 40]) j = Some Next -> i <> j).
Proof.
  assert (H : ForallOrdPairs disjoint [mk_sched 10 20; mk_sched 30 40]).
  { repeat constructor; unfold disjoint; simpl; lia. }
  split; [exact H|]. apply (classify_rows_at_most_one 15 _ H).
Defined.

(** C7: a zero-duration row ([Start = End]) is never [Running]: from the
    instant [now] reaches it, it is [Done]; before, [Upcoming] or [Next]. *)
Theorem zero_duration_never_running (now : Z) (rs : list Sched) (i : nat) (r : Sched) :
  nth_error rs i = Some r -> s_start r = s_end r ->
  exists st, nth_error (classify_rows now rs) i = Some st /\ st <> Running /\
    (s_end r <= now -> st = Done) /\ (now < s_start r -> st = Upcoming \/ st = Next).
Proof.
  intros Hi Hz. rewrite (classify_rows_nth now rs i r Hi).
  eexists; split; [reflexivity|].
  unfold stat. rewrite Hz.
  destruct (Z.leb_spec (s_end r) now).
  - split; [discriminate|]. split; [reflexivity | intros; lia].
  - destruct (Z.leb_spec (s_end r) now); [lia|].
    destruct (Z.ltb_spec now (s_end r)); [|lia]. simpl.
    destruct (existsb _ _); (split; [discriminate|]; split; [intros; lia | intros; tauto]).
Qed.

Lemma zero_duration_never_running_witness :
  nth_error [mk_sched 10 20; mk_sched 30 30] 1 = Some (mk_sched 30 30) /\
  s_start (mk_sched 30 30) = s_end (mk_sched 30 30) /\
  exists st, nth_error (classify_rows 30 [mk_sched 10 20; mk_sched 30 30]) 1 = Some st /\
    st <> Running /\ (s_end (mk_sched 30 30) <= 30 -> st = Done) /\
    (30 < s_start (mk_sched 30 30) -> st = Upcoming \/ st = Next).
Proof.
  split; [reflexivity|]. split; [reflexivity|].
  apply (zero_duration_never_running 30 _ 1 (mk_sched 30 30)); reflexivity.
Defined.

(** Scenario E: at [now = Start = End] a zero-duration row is [Done]. *)
Example scenario_e : classify_rows 30 [mk_sched 30 30] = [Done].
Proof. reflexivity. Qed.

Lemma total_seconds_ratio (a b : Z) : b <> 0 ->
  (total_seconds a / total_seconds b == inject_Z a / inject_Z b)%Q.
Proof.
  intros Hb. unfold total_seconds. rewrite !Qmake_Qdiv.
  field. intros H; apply Hb; unfold Qeq in H; simpl in H; lia.
Qed.

(** Scenario A: 08:00-09:00 at 08:30 is half done. *)
Example scenario_a :
  option_map Qred
    (progress (mk_sched (8 * 3600 * second) (9 * 3600 * second)) (8 * 3600 * second + 1800 * second))
  = Some (1 # 2)%Q.
Proof. reflexivity. Qed.

(** C8: the progress fraction never divides by zero; it is [0] when
    [End = Start], and for the running row it is
    [clamp((now - Start) / (End - Start), 0, 1)]. *)
Theorem progress_fraction (r : Sched) (now : Z) :
  progress r now <> None /\
  (s_end r = s_start r -> progress r now = Some 0%Q) /\
  (stat now r = Running ->
   exists v, progress r now = Some v /\
     (v == Qmax 0 (Qmin 1 (inject_Z (now - s_start r) / inject_Z (s_end r - s_start r))))%Q).
Proof.
  unfold progress.
  destruct (Qle_bool (total_seconds (s_end r - s_start r)) 0) eqn:Ele.
  - split; [discriminate|]. split; [reflexivity|].
    intros Hrun. apply running_iff in Hrun. exfalso.
    apply Qle_bool_iff in Ele. unfold total_seconds, Qle in Ele. simpl in Ele. lia.
  - assert (Hne : Qeq_bool (total_seconds (s_end r - s_start r)) 0 = false).
    { destruct (Qeq_bool _ 0) eqn:E; [|reflexivity].
      apply Qeq_bool_iff in E.
      assert (Qle_bool (total_seconds (s_end r - s_start r)) 0 = true)
        by (apply Qle_bool_iff; rewrite E; apply Qle_refl).
      congruence. }
    unfold py_div. rewrite Hne. split; [discriminate|]. split.
    + intros Heq. exfalso. rewrite Heq, Z.sub_diag in Hne. discriminate.
    + intros Hrun. apply running_iff in Hrun.
      eexists; split; [reflexivity|]. simpl.
      rewrite total_seconds_ratio by lia. reflexivity.
Qed.

End ClassifyFacts.

(** ** Normalizer *)

Module NormalizeFacts.
Import Normalize Fixtures.

Lemma normalize_tasks_columns (to_dt : string -> option Z) (t : RawTable) :
  has_columns t = true ->
  normalize_tasks to_dt t = map (normalize_row to_dt t) (rows t).
Proof. intros H. unfold normalize_tasks. rewrite H. reflexivity. Qed.

Lemma normalize_tasks_nth (to_dt : string -> option Z) (t : RawTable)
    (i : nat) (nr : NormRow) :
  nth_error (normalize_tasks to_dt t) i = Some nr ->
  has_columns t = true /\
  exists r, nth_error (rows t) i = Some r /\ nr = normalize_row to_dt t r.
Proof.
  unfold normalize_tasks. destruct (has_columns t).
  - rewrite nth_error_map. destruct (nth_error (rows t) i) as [r|]; simpl;
      [|discriminate].
    intros H. injection H as <-. split; [reflexivity|]. exists r; split; reflexivity.
  - destruct i; discriminate.
Qed.

(** C4 (as stated, refuted): a negative integer in the "DurationSec"
    column is kept as it is by [_safe_int]. *)
Lemma normalize_keeps_negative_duration :
  map n_dur (normalize_tasks (fun _ => None)
               {| has_end := false; has_dur := true; has_other := true; rows := [raw (CInt (-5))] |})
  = [-5].
Proof. reflexivity. Qed.

(** C4 (amended): a duration derived from "End" or defaulted is
    non-negative; a duration read from a used "DurationSec" column is
    [_safe_int] of the cell (0 when missing or not an integer), so a
    negative normalised duration is exactly a negative integer given
    there. *)
Theorem normalize_duration_sign (to_dt : string -> option Z) (t : RawTable)
    (i : nat) (r : RawRow) (nr : NormRow) :
  nth_error (rows t) i = Some r ->
  nth_error (normalize_tasks to_dt t) i = Some nr ->
  (dur_column_used t = false -> 0 <= n_dur nr) /\
  (dur_column_used t = true -> n_dur nr = safe_int (r_dur r) 0) /\
  (n_dur nr < 0 -> dur_column_used t = true /\ r_dur r = CInt (n_dur nr)).
Proof.
  intros Hr Hn. apply normalize_tasks_nth in Hn as [_ [r' [Hr' ->]]].
  rewrite Hr in Hr'. injection Hr' as <-.
  unfold normalize_row; simpl.
  destruct (dur_column_used t) eqn:Eu.
  - split; [discriminate|]. split; [reflexivity|].
    intros Hneg. split; [reflexivity|].
    destruct (r_dur r); simpl in *; [lia | reflexivity | lia].
  - assert (Hpos : 0 <= (if has_end t then end_duration to_dt r else 0)).
    { destruct (has_end t); [|lia]. unfold end_duration.
      destruct (to_dt (date_start_text (r_date r) (r_start r)));
        destruct (to_dt (date_start_text (r_date r) (r_end r))); lia. }
    split; [intros _; exact Hpos|]. split; [discriminate|]. intros; lia.
Qed.

Lemma normalize_duration_sign_witness :
  nth_error (rows {| has_end := false; has_dur := true; has_other := true; rows := [raw (CInt 30)] |}) 0
    = Some (raw (CInt 30)) /\
  nth_error (normalize_tasks (fun _ => None)
               {| has_end := false; has_dur := true; has_other := true; rows := [raw (CInt 30)] |}) 0
    = Some {| n_date := "2024-05-01"; n_start := "08:00:00"; n_dur := 30; n_act := "Briefing" |} /\
  (dur_column_used {| has_end := false; has_dur := true; has_other := true; rows := [raw (CInt 30)] |} = false ->
     0 <= 30) /\
  (dur_column_used {| has_end := false; has_dur := true; has_other := true; rows := [raw (CInt 30)] |} = true ->
     30 = safe_int (r_dur (raw (CInt 30))) 0) /\
  (30 < 0 -> dur_column_used {| has_end := false; has_dur := true; has_other := true; rows := [raw (CInt 30)] |} = true
             /\ r_dur (raw (CInt 30)) = CInt 30).
Proof.
  split; [reflexivity|]. split; [reflexivity|].
  apply (normalize_duration_sign (fun _ => None)
           {| has_end := false; has_dur := true; has_other := true; rows := [raw (CInt 30)] |} 0
           (raw (CInt 30))
           {| n_date := "2024-05-01"; n_start := "08:00:00"; n_dur := 30; n_act := "Briefing" |});
    reflexivity.
Defined.




End NormalizeFacts.

(** ** Scheduler *)

Module ScheduleFacts.
Import Normalize Schedule Props Fixtures.



(** Scenario B: two activities both nominally at 08:00, of 45 and 30
    minutes: 08:00-08:45, then 08:46-09:16. *)
Example scenario_b :
  option_map (map (fun x => (s_start x, s_end x)))
    (compute_schedule test_to_date test_date_str test_to_dt test_localize test_td_ok test_ts_ok
       {| has_end := false; has_dur := true; has_other := true;
          rows := [task "2024-05-01" "08:00:00" 2700 "Briefing";
                   task "2024-05-01" "08:00:00" 1800 "Warmup"] |})
  = Some [(8 * 3600 * second, (8 * 3600 + 45 * 60) * second);
          ((8 * 3600 + 46 * 60) * second, (9 * 3600 + 16 * 60) * second)].
Proof. reflexivity. Qed.

(** A row with an unknown date or start text is dropped. *)
Example drops_unparsed :
  option_map (map s_act)
    (compute_schedule test_to_date test_date_str test_to_dt test_localize test_td_ok test_ts_ok
       {| has_end := false; has_dur := true; has_other := true;
          rows := [task "2024-05-01" "09:30:00" 600 "Box";
                   task "bad" "08:00:00" 600 "Lost";
                   task "2024-05-01" "25:00:00" 600 "Late";
                   task "2024-05-01" "08:00:00" 600 "Briefing"] |})
  = Some ["Briefing"; "Box"]%string.
Proof. reflexivity. Qed.


Lemma key_le_total (a b : Base) : key_le a b = false -> key_le b a = true.
Proof.
  unfold key_le.
  destruct (Z.ltb_spec (b_date a) (b_date b)); [discriminate|].
  destruct (Z.eqb_spec (b_date a) (b_date b)); simpl.
  - destruct (Z.leb_spec (b_start a) (b_start b)); [discriminate|]. intros _.
    destruct (Z.ltb_spec (b_date b) (b_date a)); [reflexivity|].
    destruct (Z.eqb_spec (b_date b) (b_date a)); [|lia].
    destruct (Z.leb_spec (b_start b) (b_start a)); [reflexivity | lia].
  - intros _. destruct (Z.ltb_spec (b_date b) (b_date a)); [reflexivity | lia].
Qed.

Lemma key_le_date (a b : Base) : key_le a b = true -> b_date a <= b_date b.
Proof.
  unfold key_le. destruct (Z.ltb_spec (b_date a) (b_date b)); [intros; lia|].
  destruct (Z.eqb_spec (b_date a) (b_date b)); [intros; lia | discriminate].
Qed.

Lemma key_le_trans (a b c : Base) :
  key_le a b = true -> key_le b c = true -> key_le a c = true.
Proof.
  unfold key_le.
  destruct (Z.ltb_spec (b_date a) (b_date b)), (Z.eqb_spec (b_date a) (b_date b)),
           (Z.leb_spec (b_start a) (b_start b)), (Z.ltb_spec (b_date b) (b_date c)),
           (Z.eqb_spec (b_date b) (b_date c)), (Z.leb_spec (b_start b) (b_start c));
    simpl; try discriminate; intros _ _;
    destruct (Z.ltb_spec (b_date a) (b_date c)); try reflexivity;
    destruct (Z.eqb_spec (b_date a) (b_date c)); try lia; simpl;
    destruct (Z.leb_spec (b_start a) (b_start c)); try reflexivity; lia.
Qed.

Lemma insert_row_perm (x : Base) (l : list Base) : Permutation (insert_row x l) (x :: l).
Proof.
  induction l as [|y l IH]; simpl; [reflexivity|].
  destruct (key_le x y); [reflexivity|].
  rewrite IH. apply perm_swap.
Qed.

Lemma sort_rows_perm (l : list Base) : Permutation (sort_rows l) l.
Proof.
  induction l as [|x l IH]; simpl; [reflexivity|].
  rewrite insert_row_perm, IH. reflexivity.
Qed.

Lemma insert_row_sorted (x : Base) (l : list Base) :
  Sorted row_le l -> Sorted row_le (insert_row x l).
Proof.
  induction 1 as [|y l Hl IH Hhd]; simpl; [repeat constructor|].
  destruct (key_le x y) eqn:Exy.
  - constructor; [constructor; assumption | constructor; exact Exy].
  - apply key_le_total in Exy. constructor; [exact IH|].
    destruct l as [|z l]; simpl; [constructor; exact Exy|].
    inversion Hhd as [|? ? Hyz]; subst.
    destruct (key_le x z); constructor; assumption.
Qed.

Lemma sort_rows_sorted (l : list Base) : Sorted row_le (sort_rows l).
Proof.
  induction l as [|x l IH]; simpl; [constructor|]. apply insert_row_sorted; exact IH.
Qed.

Lemma sort_rows_by_date (l : list Base) : StronglySorted date_le (sort_rows l).
Proof.
  assert (Hs : StronglySorted row_le (sort_rows l)).
  { apply Sorted_StronglySorted; [|apply sort_rows_sorted].
    intros a b c. apply key_le_trans. }
  induction Hs as [|a l' _ IH Hall]; constructor; [exact IH|].
  eapply Forall_impl; [|exact Hall]. intros b. apply key_le_date.
Qed.

Lemma lookup_day_none (d : Z) (m : list (Z * Z)) :
  (forall k v, In (k, v) m -> k <> d) -> lookup_day d m = None.
Proof.
  induction m as [|[k v] m IH]; intros H; [reflexivity|]. simpl.
  destruct (Z.eqb_spec k d) as [E|E]; [exfalso; exact (H k v (or_introl eq_refl) E)|].
  apply IH. intros k' v' Hin. apply (H k' v'). right; exact Hin.
Qed.

Section WithParsers.
Variable to_date : string -> option Z.
Variable date_str : Z -> string.
Variable to_dt : string -> option Z.
Variable localize : Z -> option Z.
Variable td_ok : Z -> bool.
Variable ts_ok : Z -> bool.

Lemma py_timedelta_eq (s d : Z) : py_timedelta s = Some d -> d = s.
Proof.
  unfold py_timedelta. destruct (_ && _); [|discriminate]. intros H; injection H as <-; reflexivity.
Qed.

Lemma ts_add_eq (a span c : Z) : ts_add td_ok ts_ok a span = Some c -> c = a + span.
Proof.
  unfold ts_add. destruct (_ && _); [|discriminate]. intros H; injection H as <-; reflexivity.
Qed.

(** One step of the loop, when it does not raise. *)
Lemma chain_cons (prev : list (Z * Z)) (a : Base) (l : list Base) (out : list Sched) :
  chain td_ok ts_ok prev (a :: l) = Some out ->
  exists st rest,
    st = match lookup_day (b_date a) prev with
         | Some e => e + GAP
         | None => b_start a
         end /\
    chain td_ok ts_ok ((b_date a, st + b_dur a * second) :: prev) l = Some rest /\
    out = {| s_date := b_date a; s_start := st; s_end := st + b_dur a * second;
             s_dur := b_dur a; s_act := b_act a |} :: rest.
Proof.
  simpl. destruct (py_timedelta (b_dur a)) as [dur|] eqn:Ed; [|discriminate].
  apply py_timedelta_eq in Ed. subst dur.
  destruct (match lookup_day (b_date a) prev with
            | Some e => ts_add td_ok ts_ok e GAP
            | None => Some (b_start a)
            end) as [st|] eqn:Est; [|discriminate].
  destruct (ts_add td_ok ts_ok st (b_dur a * second)) as [en|] eqn:Een; [|discriminate].
  apply ts_add_eq in Een. subst en.
  destruct (chain td_ok ts_ok _ l) as [rest|] eqn:Er; [|discriminate].
  simpl. intros H. injection H as <-.
  exists st, rest. split; [|split; [exact Er | reflexivity]].
  destruct (lookup_day (b_date a) prev); [|injection Est as <-; reflexivity].
  apply ts_add_eq in Est. exact Est.
Qed.

(** The loop of [compute_schedule], row by row, when it does not raise:
    each output row copies the date, duration and activity and ends [dur]
    seconds after its start; the first row starts at its own start or
    [GAP] after the end recorded for its day, and each later row starts
    [GAP] after the previous output row when they share a day, at its own
    start otherwise. *)
Lemma chain_nth (l : list Base) :
  StronglySorted date_le l ->
  forall (prev : list (Z * Z)) (out : list Sched),
  (forall k v z, In (k, v) prev -> In z l -> k <= b_date z) ->
  chain td_ok ts_ok prev l = Some out ->
  forall i x y, nth_error l i = Some x -> nth_error out i = Some y ->
  s_date y = b_date x /\ s_dur y = b_dur x /\ s_act y = b_act x /\
  s_end y = s_start y + b_dur x * second /\
  (i = O -> s_start y = match lookup_day (b_date x) prev with
                        | Some e => e + GAP
                        | None => b_start x
                        end) /\
  (forall p q, i <> O -> nth_error l (pred i) = Some p ->
               nth_error out (pred i) = Some q ->
               (b_date p = b_date x -> s_start y = s_end q + GAP) /\
               (b_date p <> b_date x -> s_start y = b_start x)).
Proof.
  induction 1 as [|a l Hl IH Ha]; intros prev out Hprev Hc i x y Hx Hy;
    [destruct i; discriminate|].
  apply chain_cons in Hc as [st [rest [Hst [Hrest ->]]]].
  destruct i as [|j].
  - simpl in Hx, Hy. injection Hx as <-. injection Hy as <-. simpl.
    do 4 (split; [reflexivity|]). split; [intros _; exact Hst|].
    intros p q Habs. exfalso; apply Habs; reflexivity.
  - simpl in Hx, Hy.
    assert (Hprev' : forall k v z, In (k, v) ((b_date a, st + b_dur a * second) :: prev) ->
                                   In z l -> k <= b_date z).
    { intros k v z [Hkv | Hkv] Hz.
      - injection Hkv as <- _. rewrite Forall_forall in Ha. exact (Ha z Hz).
      - apply (Hprev k v z Hkv). right; exact Hz. }
    destruct (IH _ _ Hprev' Hrest j x y Hx Hy) as [H1 [H2 [H3 [H4 [H5 H6]]]]].
    split; [exact H1|]. split; [exact H2|]. split; [exact H3|]. split; [exact H4|].
    split; [intros Habs; discriminate|].
    intros p q _ Hp Hq. destruct j as [|j'].
    + simpl in Hp, Hq. injection Hp as <-. injection Hq as <-. simpl.
      rewrite (H5 eq_refl). simpl.
      destruct (Z.eqb_spec (b_date a) (b_date x)) as [E|E].
      * split; [reflexivity | intros; contradiction].
      * split; [intros; contradiction|]. intros _.
        rewrite lookup_day_none; [reflexivity|].
        intros k v Hkv Hk. subst k.
        assert (Hax : b_date a <= b_date x).
        { rewrite Forall_forall in Ha. apply Ha. eapply nth_error_In; exact Hx. }
        assert (Hka : b_date x <= b_date a) by (apply (Hprev _ v a Hkv); left; reflexivity).
        lia.
    + apply (H6 p q); [discriminate | exact Hp | exact Hq].
Qed.

Lemma length_chain (prev : list (Z * Z)) (l : list Base) (out : list Sched) :
  chain td_ok ts_ok prev l = Some out -> List.length out = List.length l.
Proof.
  revert prev out; induction l as [|b l IH]; intros prev out H.
  - simpl in H. injection H as <-. reflexivity.
  - apply chain_cons in H as [st [rest [_ [Hrest ->]]]]. simpl.
    rewrite (IH _ _ Hrest). reflexivity.
Qed.

Lemma map_chain_key (prev : list (Z * Z)) (l : list Base) (out : list Sched) :
  chain td_ok ts_ok prev l = Some out -> map sched_key out = map base_key l.
Proof.
  revert prev out; induction l as [|b l IH]; intros prev out H.
  - simpl in H. injection H as <-. reflexivity.
  - apply chain_cons in H as [st [rest [_ [Hrest ->]]]]. simpl.
    rewrite (IH _ _ Hrest). reflexivity.
Qed.

(** The loop raises only on a row whose duration [timedelta] cannot hold,
    or whose start ([end + GAP]) or end ([start + dur]) pandas cannot
    compute. *)
Lemma chain_fails (prev : list (Z * Z)) (l : list Base) :
  chain td_ok ts_ok prev l = None ->
  exists b, In b l /\
    (py_timedelta (b_dur b) = None \/
     exists a, ts_add td_ok ts_ok a GAP = None \/
               ts_add td_ok ts_ok a (b_dur b * second) = None).
Proof.
  revert prev; induction l as [|b l IH]; intros prev H; [discriminate|].
  simpl in H. destruct (py_timedelta (b_dur b)) as [dur|] eqn:Ed.
  2:{ exists b. split; [left; reflexivity | left; exact Ed]. }
  apply py_timedelta_eq in Ed. subst dur.
  destruct (lookup_day (b_date b) prev) as [e|].
  - destruct (ts_add td_ok ts_ok e GAP) as [st|] eqn:Est.
    2:{ exists b. split; [left; reflexivity | right; exists e; left; exact Est]. }
    destruct (ts_add td_ok ts_ok st (b_dur b * second)) as [en|] eqn:Een.
    2:{ exists b. split; [left; reflexivity | right; exists st; right; exact Een]. }
    destruct (chain td_ok ts_ok _ l) eqn:Er; [discriminate|].
    destruct (IH _ Er) as [b' [Hin Hb']]. exists b'. split; [right; exact Hin | exact Hb'].
  - destruct (ts_add td_ok ts_ok (b_start b) (b_dur b * second)) as [en|] eqn:Een.
    2:{ exists b. split; [left; reflexivity | right; exists (b_start b); right; exact Een]. }
    destruct (chain td_ok ts_ok _ l) eqn:Er; [discriminate|].
    destruct (IH _ Er) as [b' [Hin Hb']]. exists b'. split; [right; exact Hin | exact Hb'].
Qed.

(** C1: the rows are put in (date, start) order; in that order, the first
    row of each date keeps its own start, every later row of the same date
    starts exactly [GAP] (one minute) after the previous row ends, whatever
    its own start, and every row ends [DurationSec] seconds after it starts
    (whenever the computation does not raise). *)
Theorem compute_schedule_chained (t : RawTable) (b : list Base) :
  prepare to_date date_str to_dt localize t = Some b ->
  Sorted (fun u v => key_le u v = true) b /\
  forall out, compute_schedule to_date date_str to_dt localize td_ok ts_ok t = Some out ->
    List.length out = List.length b /\
    forall i x y, nth_error b i = Some x -> nth_error out i = Some y ->
      s_date y = b_date x /\ s_end y = s_start y + b_dur x * second /\
      ((i = O \/ exists p, nth_error b (pred i) = Some p /\ b_date p <> b_date x) ->
       s_start y = b_start x) /\
      (forall p q, i <> O -> nth_error b (pred i) = Some p -> b_date p = b_date x ->
                   nth_error out (pred i) = Some q -> s_start y = s_end q + GAP).
Proof.
  intros Hb. unfold prepare in Hb.
  destruct (parse_rows to_date date_str to_dt localize (normalize_tasks to_dt t)) as [bs|] eqn:Ep;
    [|discriminate].
  simpl in Hb. injection Hb as <-. split; [apply sort_rows_sorted|].
  intros out Hout. unfold compute_schedule, prepare in Hout. rewrite Ep in Hout. simpl in Hout.
  split; [apply (length_chain _ _ _ Hout)|].
  intros i x y Hx Hy.
  assert (Hnil : forall k v z, In (k, v) (@nil (Z * Z)) -> In z (sort_rows bs) -> k <= b_date z)
    by (intros k v z []).
  destruct (chain_nth _ (sort_rows_by_date bs) [] out Hnil Hout i x y Hx Hy)
    as [H1 [_ [_ [H4 [H5 H6]]]]].
  split; [exact H1|]. split; [exact H4|]. split.
  - intros [Hi | [p [Hp Hne]]].
    + subst i. rewrite (H5 eq_refl). reflexivity.
    + destruct i as [|j]; [rewrite (H5 eq_refl); reflexivity|].
      assert (Hq : exists q, nth_error out j = Some q).
      { destruct (nth_error out j) as [q|] eqn:E; [exists q; reflexivity|].
        apply nth_error_None in E. rewrite (length_chain _ _ _ Hout) in E.
        assert (Hs : nth_error (sort_rows bs) j <> None) by (simpl in Hp; rewrite Hp; discriminate).
        apply nth_error_Some in Hs. lia. }
      destruct Hq as [q Hq]. apply (proj2 (H6 p q ltac:(discriminate) Hp Hq)). exact Hne.
  - intros p q Hi Hp Heq Hq. apply (proj1 (H6 p q Hi Hp Hq)). exact Heq.
Qed.

Lemma parse_rows_keys (rs : list NormRow) (bs : list Base) :
  parse_rows to_date date_str to_dt localize rs = Some bs -> map base_key bs = kept_rows to_date date_str to_dt rs.
Proof.
  revert bs; induction rs as [|r rs IH]; intros bs H.
  - simpl in H. injection H as <-. reflexivity.
  - simpl in H. unfold kept_rows; simpl; fold (kept_rows to_date date_str to_dt rs).
    destruct (parse_rows to_date date_str to_dt localize rs) as [bs'|] eqn:Erest;
      [|destruct (base_row _ _ _ _ r); discriminate].
    specialize (IH bs' eq_refl).
    unfold base_row in H.
    destruct (to_date (n_date r)) as [d|] eqn:Ed; simpl in H.
    + destruct (to_dt (date_start_text (date_str d) (n_start r))) as [naive|].
      * destruct (localize naive) as [tl|]; [|discriminate].
        injection H as <-. simpl. rewrite IH. reflexivity.
      * injection H as <-. exact IH.
    + destruct (to_dt (date_start_text "NaT" (n_start r))) as [naive|].
      * destruct (localize naive); [|discriminate]. injection H as <-. exact IH.
      * injection H as <-. exact IH.
Qed.

Lemma parse_rows_fails (Hnat : forall s, to_dt (date_start_text "NaT" s) = None)
    (rs : list NormRow) :
  parse_rows to_date date_str to_dt localize rs = None ->
  exists r d naive, In r rs /\ to_date (n_date r) = Some d /\
    to_dt (date_start_text (date_str d) (n_start r)) = Some naive /\ localize naive = None.
Proof.
  induction rs as [|r rs IH]; intros H; [discriminate|].
  simpl in H.
  destruct (base_row to_date date_str to_dt localize r) as [ob|] eqn:Eb.
  - destruct (parse_rows to_date date_str to_dt localize rs); [discriminate|].
    destruct (IH eq_refl) as [r' [d [naive [Hin Hrest]]]].
    exists r', d, naive. split; [right; exact Hin | exact Hrest].
  - unfold base_row in Eb.
    destruct (to_date (n_date r)) as [d|] eqn:Ed; simpl in Eb.
    + destruct (to_dt (date_start_text (date_str d) (n_start r))) as [naive|] eqn:Et;
        [|discriminate].
      destruct (localize naive) eqn:El; [discriminate|].
      exists r, d, naive. repeat split; try assumption. left; reflexivity.
    + rewrite Hnat in Eb. discriminate.
Qed.

(** C10: rows whose "Date" or "Date Start" text does not parse are dropped
    without any error: the schedule holds exactly the other rows (as a
    permutation, since it is sorted); [compute_schedule] raises only on a
    row that parsed: [tz_localize] raising on it, or its duration or one of
    its instants out of the range of [timedelta] or pandas. *)
Theorem compute_schedule_drops_unparsed
    (Hnat : forall s, to_dt (date_start_text "NaT" s) = None) (t : RawTable) :
  (forall out, compute_schedule to_date date_str to_dt localize td_ok ts_ok t = Some out ->
     Permutation (map sched_key out) (kept_rows to_date date_str to_dt (normalize_tasks to_dt t))) /\
  (compute_schedule to_date date_str to_dt localize td_ok ts_ok t = None ->
     (exists r d naive, In r (normalize_tasks to_dt t) /\ to_date (n_date r) = Some d /\
        to_dt (date_start_text (date_str d) (n_start r)) = Some naive /\ localize naive = None) \/
     (exists b, In (base_key b) (kept_rows to_date date_str to_dt (normalize_tasks to_dt t)) /\
        (py_timedelta (b_dur b) = None \/
         exists a, ts_add td_ok ts_ok a GAP = None \/
                   ts_add td_ok ts_ok a (b_dur b * second) = None))).
Proof.
  unfold compute_schedule, prepare.
  destruct (parse_rows to_date date_str to_dt localize (normalize_tasks to_dt t)) as [bs|] eqn:Ep.
  - simpl. split.
    + intros out H.
      rewrite (map_chain_key _ _ _ H), <- (parse_rows_keys _ bs Ep).
      apply Permutation_map, sort_rows_perm.
    + intros H. right.
      destruct (chain_fails _ _ H) as [b [Hin Hb]]. exists b. split; [|exact Hb].
      rewrite <- (parse_rows_keys _ bs Ep). apply in_map.
      apply (Permutation_in _ (sort_rows_perm bs)). exact Hin.
  - split; [discriminate|]. intros _. left. apply parse_rows_fails; assumption.
Qed.

End WithParsers.

(** A duration of 10^13 seconds (the text "2777777778:00:00") fits in a
    [timedelta] but not in a nanosecond [Timedelta]: [compute_schedule]
    raises. *)
Example schedule_overflow :
  compute_schedule test_to_date test_date_str test_to_dt test_localize test_td_ok test_ts_ok
    {| has_end := false; has_dur := true; has_other := true;
       rows := [task "2024-05-01" "08:00:00" (10 ^ 13) "Long"] |} = None.
Proof. vm_compute. reflexivity. Qed.

Lemma compute_schedule_chained_witness :
  prepare test_to_date test_date_str test_to_dt test_localize scenario_b_table
    = Some scenario_b_base /\
  (exists out, compute_schedule test_to_date test_date_str test_to_dt test_localize
                 test_td_ok test_ts_ok scenario_b_table = Some out) /\
  (Sorted (fun u v => key_le u v = true) scenario_b_base /\
   forall out, compute_schedule test_to_date test_date_str test_to_dt test_localize
                 test_td_ok test_ts_ok scenario_b_table = Some out ->
    List.length out = List.length scenario_b_base /\
    forall i x y, nth_error scenario_b_base i = Some x -> nth_error out i = Some y ->
      s_date y = b_date x /\ s_end y = s_start y + b_dur x * second /\
      ((i = O \/ exists p, nth_error scenario_b_base (pred i) = Some p /\ b_date p <> b_date x) ->
       s_start y = b_start x) /\
      (forall p q, i <> O -> nth_error scenario_b_base (pred i) = Some p -> b_date p = b_date x ->
                   nth_error out (pred i) = Some q -> s_start y = s_end q + GAP)).
Proof.
  split; [vm_compute; reflexivity|].
  split; [eexists; vm_compute; reflexivity|].
  apply (compute_schedule_chained test_to_date test_date_str test_to_dt test_localize
           test_td_ok test_ts_ok scenario_b_table scenario_b_base).
  vm_compute. reflexivity.
Defined.

Lemma test_to_dt_nat (s : string) : test_to_dt (date_start_text "NaT" s) = None.
Proof. reflexivity. Qed.

Lemma compute_schedule_drops_unparsed_witness :
  (forall s, test_to_dt (date_start_text "NaT" s) = None) /\
  ((forall out, compute_schedule test_to_date test_date_str test_to_dt test_localize
                  test_td_ok test_ts_ok scenario_b_table = Some out ->
      Permutation (map sched_key out)
        (kept_rows test_to_date test_date_str test_to_dt (normalize_tasks test_to_dt scenario_b_table))) /\
   (compute_schedule test_to_date test_date_str test_to_dt test_localize
      test_td_ok test_ts_ok scenario_b_table = None ->
      (exists r d naive, In r (normalize_tasks test_to_dt scenario_b_table) /\
         test_to_date (n_date r) = Some d /\
         test_to_dt (date_start_text (test_date_str d) (n_start r)) = Some naive /\
         test_localize naive = None) \/
      (exists b, In (base_key b)
                   (kept_rows test_to_date test_date_str test_to_dt
                      (normalize_tasks test_to_dt scenario_b_table)) /\
         (py_timedelta (b_dur b) = None \/
          exists a, ts_add test_td_ok test_ts_ok a GAP = None \/
                    ts_add test_td_ok test_ts_ok a (b_dur b * second) = None)))).
Proof.
  split; [exact test_to_dt_nat|].
  apply (compute_schedule_drops_unparsed test_to_date test_date_str test_to_dt test_localize
           test_td_ok test_ts_ok test_to_dt_nat scenario_b_table).
Defined.

End ScheduleFacts.

(** ** Clock-time parser and span display *)

Module TimeFacts.
Import PyStr Duration TimeOfDay Props DurationFacts.

Example time_hm : parse_time_str " 8:05 " = Some (8, 5, 0).
Proof. reflexivity. Qed.
Example time_hour_24 : parse_time_str "24:00" = None.
Proof. reflexivity. Qed.
Example time_second_60 : parse_time_str "23:59:60" = None.
Proof. reflexivity. Qed.
Example time_three_digits : parse_time_str "08:000" = None.
Proof. reflexivity. Qed.
Example human_short : human_td exact_seconds (-(90 * 1000000 + 500000)) = "-01:30"%string.
Proof. reflexivity. Qed.
Example human_long : human_td exact_seconds (3723 * 1000000) = "01:02:03"%string.
Proof. reflexivity. Qed.
Example human_under_second : human_td exact_seconds (-1) = "-00:00"%string.
Proof. reflexivity. Qed.

Lemma digit_value_range (c : ascii) : is_digit c = true -> 0 <= digit_value c <= 9.
Proof.
  unfold is_digit, digit_value. intros H. apply andb_prop in H.
  destruct H as [H1 H2]. apply Nat.leb_le in H1. apply Nat.leb_le in H2. lia.
Qed.

Ltac digit_bounds :=
  repeat match goal with
  | H : is_digit ?c = true |- _ =>
      pose proof (digit_value_range c H); clear H
  end.

Ltac bool_facts :=
  repeat match goal with
  | H : (_ && _) = true |- _ => apply andb_prop in H; destruct H
  | H : (_ || _) = true |- _ => apply orb_prop in H; destruct H
  | H : (_ =? _) = true |- _ => apply Z.eqb_eq in H
  | H : (_ <=? _) = true |- _ => apply Z.leb_le in H
  end.

Lemma re_H_range (p : list ascii) (h : Z) : re_H p = Some h -> 0 <= h <= 23.
Proof.
  destruct p as [|a [|b [|c r]]]; simpl; try discriminate.
  - destruct (is_digit a) eqn:Ea; [|discriminate]. intros Hh; injection Hh as <-.
    digit_bounds. lia.
  - destruct (_ && _) eqn:E; [|discriminate]. intros Hh; injection Hh as <-.
    bool_facts; digit_bounds; lia.
Qed.

Lemma re_M_range (p : list ascii) (m : Z) : re_M p = Some m -> 0 <= m <= 59.
Proof.
  destruct p as [|a [|b [|c r]]]; simpl; try discriminate.
  - destruct (is_digit a) eqn:Ea; [|discriminate]. intros Hm; injection Hm as <-.
    digit_bounds. lia.
  - destruct (_ && _) eqn:E; [|discriminate]. intros Hm; injection Hm as <-.
    bool_facts; digit_bounds; lia.
Qed.

Lemma re_S_range (p : list ascii) (s : Z) : re_S p = Some s -> 0 <= s.
Proof.
  destruct p as [|a [|b [|c r]]]; simpl; try discriminate.
  - destruct (is_digit a) eqn:Ea; [|discriminate]. intros Hs; injection Hs as <-.
    digit_bounds. lia.
  - destruct (_ && _) eqn:E; [|discriminate]. intros Hs; injection Hs as <-.
    bool_facts; digit_bounds; lia.
Qed.

Lemma parse_time_range (str : string) (h m s : Z) :
  parse_time_str str = Some (h, m, s) ->
  0 <= h <= 23 /\ 0 <= m <= 59 /\ 0 <= s <= 59.
Proof.
  unfold parse_time_str, parse_time_chars.
  destruct (split_colon (strip (list_ascii_of_string str))) as [|ph [|pm [|ps [|x r]]]];
    try discriminate.
  - destruct (re_H ph) as [h'|] eqn:Eh; [|discriminate].
    destruct (re_M pm) as [m'|] eqn:Em; [|discriminate].
    intros E; injection E as <- <- <-.
    apply re_H_range in Eh. apply re_M_range in Em. lia.
  - destruct (re_H ph) as [h'|] eqn:Eh; [|discriminate].
    destruct (re_M pm) as [m'|] eqn:Em; [|discriminate].
    destruct (re_S ps) as [s'|] eqn:Es; [|discriminate].
    destruct (Z.leb_spec s' 59); [|discriminate].
    intros E; injection E as <- <- <-.
    apply re_H_range in Eh. apply re_M_range in Em. apply re_S_range in Es. lia.
Qed.

(** [f"{n:02d}"] of a number below 100 is its two decimal digits. *)
Lemma fmt02_small (n : Z) : 0 <= n < 100 ->
  fmt02 n = [digit_char (n / 10); digit_char (n mod 10)].
Proof.
  intros Hn. unfold fmt02, show_nat.
  destruct (Z.ltb_spec n 10) as [Hlt|Hge].
  - cbn [digits_of]. rewrite (proj2 (Z.ltb_lt n 10) Hlt). simpl.
    rewrite Z.div_small, Z.mod_small by lia. reflexivity.
  - assert (Hk : Z.to_nat n = S (Z.to_nat (n - 1))) by lia.
    rewrite Hk. cbn [digits_of].
    rewrite (proj2 (Z.ltb_ge n 10) Hge).
    assert (Hq : n / 10 < 10) by (apply Z.div_lt_upper_bound; lia).
    rewrite (proj2 (Z.ltb_lt (n / 10) 10) Hq). reflexivity.
Qed.

Ltac two_digits n :=
  rewrite (fmt02_small n) by lia;
  pose proof (Z.div_mod n 10 ltac:(discriminate));
  pose proof (Z.mod_pos_bound n 10 ltac:(lia));
  assert (0 <= n / 10 < 10) by (split; [apply Z.div_pos | apply Z.div_lt_upper_bound]; lia);
  destruct (digit_char_props (n / 10)) as [?Da [?Va _]]; [lia|];
  destruct (digit_char_props (n mod 10)) as [?Db [?Vb _]]; [lia|].

Lemma re_H_fmt02 (h : Z) : 0 <= h <= 23 -> re_H (fmt02 h) = Some h.
Proof.
  intros Hh. two_digits h. unfold re_H. rewrite Da, Db, Va, Vb. cbn [andb].
  destruct (Z.leb_spec (h / 10) 1).
  - rewrite orb_true_r. f_equal. lia.
  - destruct (Z.eqb_spec (h / 10) 2); [|lia].
    destruct (Z.leb_spec (h mod 10) 3); [|lia]. simpl. f_equal. lia.
Qed.

Lemma re_M_fmt02 (m : Z) : 0 <= m <= 59 -> re_M (fmt02 m) = Some m.
Proof.
  intros Hm. two_digits m. unfold re_M. rewrite Da, Db, Va, Vb. cbn [andb].
  destruct (Z.leb_spec (m / 10) 5); [|lia]. f_equal. lia.
Qed.

Lemma re_S_fmt02 (s : Z) : 0 <= s <= 59 -> re_S (fmt02 s) = Some s.
Proof.
  intros Hs. two_digits s. unfold re_S. rewrite Da, Db, Va, Vb. cbn [andb].
  destruct (Z.leb_spec (s / 10) 5); [|lia]. rewrite orb_true_r. f_equal. lia.
Qed.

Lemma parse_time_hms_text (h m s : Z) :
  0 <= h <= 23 -> 0 <= m <= 59 -> 0 <= s <= 59 ->
  parse_time_str (hms_text h m s) = Some (h, m, s).
Proof.
  intros Hh Hm Hs. unfold parse_time_str, hms_text, parse_time_chars.
  rewrite list_ascii_of_string_of_list_ascii.
  rewrite strip_hms, split_hms by lia.
  rewrite re_H_fmt02, re_M_fmt02, re_S_fmt02 by lia.
  destruct (Z.leb_spec s 59); [reflexivity | lia].
Qed.

(** The [MM:SS] text of two components. *)
Lemma split_ms (m s : Z) : 0 <= m -> 0 <= s ->
  split_colon (fmt02 m ++ [":"%char] ++ fmt02 s) = [fmt02 m; fmt02 s].
Proof.
  intros Hm Hs. unfold split_colon.
  rewrite split_go_app by (apply fmt02_no_colon; exact Hm). simpl.
  rewrite app_nil_r, rev_involutive.
  rewrite <- (app_nil_r (fmt02 s)).
  rewrite split_go_app by (apply fmt02_no_colon; exact Hs). simpl.
  rewrite ?app_nil_r, ?rev_involutive, ?app_nil_r. reflexivity.
Qed.

Lemma strip_ms (m s : Z) : 0 <= m -> 0 <= s ->
  strip (fmt02 m ++ [":"%char] ++ fmt02 s) = fmt02 m ++ [":"%char] ++ fmt02 s.
Proof.
  intros Hm Hs. apply strip_id.
  pose proof (fmt02_no_space m Hm). pose proof (fmt02_no_space s Hs).
  assert (Hc : Forall (fun c => is_py_space c = false) [":"%char])
    by (constructor; [reflexivity | constructor]).
  do 2 (apply Forall_app; split; [assumption|]). assumption.
Qed.

Lemma parse_ms_text (m s : Z) :
  0 <= m -> 0 <= s < 60 -> m * 60 + s <= td_max_seconds ->
  parse_duration_hms (string_of_list_ascii (fmt02 m ++ [":"%char] ++ fmt02 s))
  = Some (m * 60 + s).
Proof.
  intros Hm Hs Hmax. unfold parse_duration_hms, parse_duration_hms_chars.
  rewrite list_ascii_of_string_of_list_ascii.
  rewrite strip_ms, split_ms by lia. cbn [ints_of_parts].
  rewrite !py_int_fmt02 by lia. cbn [option_map].
  destruct (Z.ltb_spec m 0); [lia|].
  destruct (Z.leb_spec 0 s); [|lia]. destruct (Z.ltb_spec s 60); [|lia].
  simpl. unfold timedelta_of. destruct (Z.leb_spec (m * 60 + s) td_max_seconds); [reflexivity|lia].
Qed.

Lemma fmt02_head_digit (n : Z) : 0 <= n ->
  exists c rest, fmt02 n = c :: rest /\ is_digit c = true.
Proof.
  intros Hn. destruct (fmt02_digits n Hn) as [ds [Heq [Hne [Hall _]]]].
  destruct ds as [|d ds]; [contradiction|]. inversion Hall as [|? ? Hd _]; subst.
  exists (digit_char d), (map digit_char ds). split; [rewrite Heq; reflexivity|].
  apply (digit_char_props d Hd).
Qed.

(** The text of a non-negative span starts with a digit. *)
Lemma human_td_digit_head (ws : Z -> N) (us : Z) :
  0 <= us -> exists c rest, human_td ws us = String c rest /\ is_digit c = true.
Proof.
  intros Hpos. unfold human_td, human_td_chars.
  rewrite (proj2 (Z.ltb_ge us 0) Hpos).
  set (secs := Z.of_N (ws (Z.abs us))).
  assert (Hs : 0 <= secs) by apply N2Z.is_nonneg.
  assert (Hh : 0 <= secs / 3600) by (apply Z.div_pos; lia).
  assert (Hm : 0 <= secs mod 3600 / 60)
    by (apply Z.div_pos; [apply Z.mod_pos_bound|]; lia).
  destruct (negb (secs / 3600 =? 0)).
  - destruct (fmt02_head_digit _ Hh) as [c [rest [E Hc]]].
    exists c. eexists. rewrite app_nil_l, E. split; [reflexivity | exact Hc].
  - destruct (fmt02_head_digit _ Hm) as [c [rest [E Hc]]].
    exists c. eexists. rewrite app_nil_l, E. split; [reflexivity | exact Hc].
Qed.

(** X1: [parse_time_str] only returns valid clock times: hour 0-23,
    minute 0-59, second 0-59. *)
Theorem parse_time_str_valid (str : string) (h m s : Z) :
  parse_time_str str = Some (h, m, s) ->
  0 <= h <= 23 /\ 0 <= m <= 59 /\ 0 <= s <= 59.
Proof. apply parse_time_range. Qed.

Lemma parse_time_str_valid_witness :
  parse_time_str " 7:5 " = Some (7, 5, 0) /\
  0 <= 7 <= 23 /\ 0 <= 5 <= 59 /\ 0 <= 0 <= 59.
Proof.
  split; [reflexivity|]. apply (parse_time_str_valid " 7:5 "). reflexivity.
Defined.

(** X2: a parsed clock time, written back with [strftime("%H:%M:%S")] as
    the add and save paths store it, parses again to the same time. *)
Theorem parse_time_strftime (str : string) (t : Z * Z * Z) :
  parse_time_str str = Some t -> parse_time_str (strftime_hms t) = Some t.
Proof.
  destruct t as [[h m] s]. intros Ht.
  destruct (parse_time_range str h m s Ht) as [Hh [Hm Hs]].
  apply parse_time_hms_text; assumption.
Qed.

Lemma parse_time_strftime_witness :
  parse_time_str "9:07" = Some (9, 7, 0) /\
  parse_time_str (strftime_hms (9, 7, 0)) = Some (9, 7, 0).
Proof.
  split; [reflexivity|]. apply (parse_time_strftime "9:07"). reflexivity.
Defined.

(** X3: [human_td] writes a negative span as "-" followed by the text of
    its absolute value, and a non-negative span starting with a digit
    (whatever the rounding of [total_seconds]). *)
Theorem human_td_sign (ws : Z -> N) (us : Z) :
  (us < 0 -> human_td ws us = String "-" (human_td ws (- us))) /\
  (0 <= us -> exists c rest, human_td ws us = String c rest /\ is_digit c = true).
Proof.
  split.
  - intros Hneg. unfold human_td, human_td_chars.
    rewrite (proj2 (Z.ltb_lt us 0) Hneg).
    rewrite (proj2 (Z.ltb_ge (- us) 0)) by lia.
    rewrite Z.abs_opp. destruct (negb _); reflexivity.
  - apply human_td_digit_head.
Qed.

(** X4: the text [human_td] shows for a non-negative span is accepted by
    [parse_duration_hms], which reads back the number of whole seconds it
    displays ([int(td.total_seconds())], whatever its rounding): [MM:SS]
    below one hour, [HH:MM:SS] from one hour on. *)
Theorem human_td_parses_back (ws : Z -> N) (us : Z) :
  0 <= us -> Z.of_N (ws us) <= td_max_seconds ->
  parse_duration_hms (human_td ws us) = Some (Z.of_N (ws us)).
Proof.
  intros Hpos Hmax. unfold human_td, human_td_chars.
  rewrite (proj2 (Z.ltb_ge us 0) Hpos). rewrite Z.abs_eq by lia.
  set (secs := Z.of_N (ws us)) in *.
  assert (Hs : 0 <= secs) by apply N2Z.is_nonneg.
  pose proof (Z.div_mod secs 3600 ltac:(lia)) as E1.
  pose proof (Z.mod_pos_bound secs 3600 ltac:(lia)) as B1.
  pose proof (Z.div_mod (secs mod 3600) 60 ltac:(lia)) as E2.
  pose proof (Z.mod_pos_bound (secs mod 3600) 60 ltac:(lia)) as B2.
  assert (Hh : 0 <= secs / 3600) by (apply Z.div_pos; lia).
  assert (Hm : 0 <= secs mod 3600 / 60) by (apply Z.div_pos; lia).
  destruct (Z.eqb_spec (secs / 3600) 0) as [H0|H0]; simpl negb; cbv iota; rewrite app_nil_l.
  - rewrite parse_ms_text by lia. f_equal. lia.
  - fold (hms_text (secs / 3600) (secs mod 3600 / 60) (secs mod 3600 mod 60)).
    rewrite parse_hms_text by lia. f_equal. lia.
Qed.

Lemma human_td_parses_back_witness :
  0 <= 3723500000 /\ Z.of_N (exact_seconds 3723500000) <= td_max_seconds /\
  parse_duration_hms (human_td exact_seconds 3723500000) = Some 3723.
Proof.
  split; [lia|]. split; [apply Z.leb_le; reflexivity|].
  apply (human_td_parses_back exact_seconds 3723500000); [lia | apply Z.leb_le; reflexivity].
Defined.

(** X5: [duration_to_hms] shows every zero or negative duration as
    "00:00:00". *)
Theorem duration_to_hms_nonpositive (d : Z) :
  d <= 0 -> duration_to_hms d = "00:00:00"%string.
Proof.
  intros Hd. unfold duration_to_hms, duration_to_hms_chars.
  rewrite Z.max_l by exact Hd. reflexivity.
Qed.

Lemma duration_to_hms_nonpositive_witness :
  -90 <= 0 /\ duration_to_hms (-90) = "00:00:00"%string.
Proof. split; [lia|]. apply (duration_to_hms_nonpositive (-90)). lia. Defined.

End TimeFacts.

(** ** Add form and linked editor *)

Module EditorFacts.
Import PyStr Duration Normalize TimeOfDay Editor TaskProps EditorFixtures
       DurationFacts TimeFacts.

Example save_two_rows :
  save_rows test_from_iso test_iso
    [(0%nat, sample_row "8:00" "45:00"); (1%nat, sample_row "08:30:00" "1:00:00")]
  = inr [{| t_date := "2024-05-01"; t_start := "08:00:00"; t_dur := 2700; t_act := "Briefing" |};
         {| t_date := "2024-05-01"; t_start := "08:30:00"; t_dur := 3600; t_act := "Briefing" |}].
Proof. reflexivity. Qed.
Example save_errors :
  save_rows test_from_iso test_iso
    [(0%nat, sample_row "8:00" "45:00"); (2%nat, sample_row "25:00" "1:00");
     (5%nat, sample_row "08:00" "  ")]
  = inl [(2%nat, BadStart); (5%nat, EmptyFields)].
Proof. reflexivity. Qed.
Example add_blank_activity :
  add_task test_iso tt "08:00:00" "00:45" "   " = inl EmptyFields.
Proof. reflexivity. Qed.

Lemma drop_space_head (l : list ascii) :
  match drop_space l with c :: _ => is_py_space c = false | [] => True end.
Proof.
  induction l as [|a l IH]; [exact I|]. simpl.
  destruct (is_py_space a) eqn:E; [exact IH | exact E].
Qed.

Lemma drop_space_suffix (l : list ascii) : exists q, l = q ++ drop_space l.
Proof.
  induction l as [|a l [q Hq]]; [exists []; reflexivity|]. simpl.
  destruct (is_py_space a).
  - exists (a :: q). simpl. rewrite <- Hq. reflexivity.
  - exists []. reflexivity.
Qed.

(** [s.strip().strip() == s.strip()] *)
Lemma strip_idem (l : list ascii) : strip (strip l) = strip l.
Proof.
  unfold strip.
  set (X := drop_space l).
  set (Y := drop_space (rev X)).
  assert (HX := drop_space_head l). fold X in HX.
  assert (HY := drop_space_head (rev X)). fold Y in HY.
  destruct (drop_space_suffix (rev X)) as [q Hq]. fold Y in Hq.
  rewrite (drop_space_id (rev Y)).
  - rewrite rev_involutive, (drop_space_id Y HY). reflexivity.
  - assert (HX' : X = rev Y ++ rev q)
      by (rewrite <- (rev_involutive X), Hq, rev_app_distr; reflexivity).
    destruct (rev Y) as [|c r] eqn:E; [exact I|]. rewrite HX' in HX. exact HX.
Qed.

Lemma strip_str_idem (s : string) : strip_str (strip_str s) = strip_str s.
Proof.
  unfold strip_str. rewrite list_ascii_of_string_of_list_ascii, strip_idem. reflexivity.
Qed.

Lemma is_empty_false (s : string) : is_empty s = false <-> s <> ""%string.
Proof. unfold is_empty. apply String.eqb_neq. Qed.

Lemma strip_str_hms (h m s : Z) : 0 <= h -> 0 <= m -> 0 <= s ->
  strip_str (hms_text h m s) = hms_text h m s.
Proof.
  intros Hh Hm Hs. unfold strip_str, hms_text.
  rewrite list_ascii_of_string_of_list_ascii, strip_hms by assumption. reflexivity.
Qed.

Lemma hms_text_nonempty (h m s : Z) : hms_text h m s <> ""%string.
Proof. unfold hms_text. destruct (fmt02 h); discriminate. Qed.

Lemma duration_hms_components (d : Z) : 0 <= d ->
  0 <= d / 3600 /\ 0 <= d mod 3600 / 60 /\ 0 <= d mod 3600 mod 60.
Proof.
  intros Hd. pose proof (Z.mod_pos_bound d 3600 ltac:(lia)).
  pose proof (Z.mod_pos_bound (d mod 3600) 60 ltac:(lia)).
  split; [apply Z.div_pos; lia|]. split; [apply Z.div_pos; lia | lia].
Qed.

Lemma strip_str_duration (d : Z) : 0 <= d -> strip_str (duration_to_hms d) = duration_to_hms d.
Proof.
  intros Hd. destruct (duration_hms_components d Hd) as [H1 [H2 H3]].
  rewrite duration_to_hms_text by exact Hd. apply strip_str_hms; assumption.
Qed.

Lemma duration_to_hms_nonempty (d : Z) : duration_to_hms d <> ""%string.
Proof. unfold duration_to_hms, duration_to_hms_chars. destruct (fmt02 _); discriminate. Qed.

(** The [HH:MM:SS] text of a stored duration parses back to it. *)
Lemma duration_text_roundtrip (d : Z) :
  0 <= d <= td_max_seconds -> parse_duration_hms (duration_to_hms d) = Some d.
Proof.
  intros Hd. rewrite duration_to_hms_text by lia.
  pose proof (Z.div_mod d 3600 ltac:(lia)) as E1.
  pose proof (Z.mod_pos_bound d 3600 ltac:(lia)) as B1.
  pose proof (Z.div_mod (d mod 3600) 60 ltac:(lia)) as E2.
  pose proof (Z.mod_pos_bound (d mod 3600) 60 ltac:(lia)) as B2.
  assert (Hh : 0 <= d / 3600) by (apply Z.div_pos; lia).
  assert (Hm : 0 <= (d mod 3600) / 60) by (apply Z.div_pos; lia).
  rewrite parse_hms_text by lia. f_equal. lia.
Qed.

Lemma parse_duration_range (str : string) (d : Z) :
  parse_duration_hms str = Some d -> 0 <= d <= td_max_seconds.
Proof.
  unfold parse_duration_hms, parse_duration_hms_chars.
  destruct (ints_of_parts (split_colon (strip (list_ascii_of_string str))))
    as [[|a [|b [|c [|e rest]]]]|]; try discriminate.
  - destruct (Z.ltb_spec a 0); [discriminate|].
    destruct (Z.leb_spec 0 b); destruct (Z.ltb_spec b 60); try discriminate.
    unfold timedelta_of. destruct (Z.leb_spec (a * 60 + b) td_max_seconds); [|discriminate].
    intros Heq; injection Heq as <-. lia.
  - destruct (Z.ltb_spec a 0); [discriminate|]. destruct (Z.ltb_spec b 0); [discriminate|].
    destruct (Z.leb_spec 0 c); destruct (Z.ltb_spec c 60); try discriminate.
    unfold timedelta_of.
    destruct (Z.leb_spec (a * 3600 + b * 60 + c) td_max_seconds); [|discriminate].
    intros Heq; injection Heq as <-. lia.
Qed.

Section WithDates.
Context {Date : Type}.
Context {Label : Type}.
Variable from_iso : string -> option Date.
Variable iso : Date -> string.

Lemma save_row_canonical (r : EditRow) (t : Task) :
  save_row from_iso iso r = inr t -> canonical_task iso t.
Proof.
  unfold save_row.
  destruct (is_empty (strip_str (e_date r)) || is_empty (strip_str (e_start r)) ||
            is_empty (strip_str (e_duration r)) || is_empty (strip_str (e_act r))) eqn:E;
    [discriminate|].
  apply orb_false_elim in E. destruct E as [_ Ea].
  destruct (from_iso (strip_str (e_date r))) as [d|]; [|discriminate].
  destruct (parse_time_str (strip_str (e_start r))) as [[[h m] s]|] eqn:Et; [|discriminate].
  destruct (parse_duration_hms (strip_str (e_duration r))) as [dur|] eqn:Ed; [|discriminate].
  intros H; injection H as <-.
  split; [exists d; reflexivity|]. split.
  - exists h, m, s. split; [reflexivity|]. exact (parse_time_range _ h m s Et).
  - cbn [t_dur t_act]. split; [exact (parse_duration_range _ dur Ed)|].
    split; [apply strip_str_idem|]. apply is_empty_false; exact Ea.
Qed.

Lemma save_go_errors (rows : list (Label * EditRow)) :
  forall j e, In (j, e) (fst (save_go from_iso iso rows)) <->
    exists r, In (j, r) rows /\ save_row from_iso iso r = inl e.
Proof.
  induction rows as [|[i r] rest IH]; intros j e.
  - simpl. split; [intros []|]. intros [r [[] _]].
  - simpl. specialize (IH j e).
    destruct (save_go from_iso iso rest) as [errs ts]. simpl fst in IH.
    destruct (save_row from_iso iso r) as [e0|t] eqn:Er; simpl fst.
    + split.
      * intros [H|H].
        -- injection H as <- <-. exists r. split; [left; reflexivity | exact Er].
        -- apply IH in H. destruct H as [r' [Hin He]].
           exists r'. split; [right; exact Hin | exact He].
      * intros [r' [[Hh|Hin] He]].
        -- injection Hh as <- <-. left. rewrite Er in He. injection He as <-. reflexivity.
        -- right. apply IH. exists r'. split; assumption.
    + rewrite IH. split.
      * intros [r' [Hin He]]. exists r'. split; [right; exact Hin | exact He].
      * intros [r' [[Hh|Hin] He]].
        -- injection Hh as <- <-. congruence.
        -- exists r'. split; assumption.
Qed.

Lemma save_go_tasks (rows : list (Label * EditRow)) :
  fst (save_go from_iso iso rows) = [] ->
  Forall2 (fun lr t => save_row from_iso iso (snd lr) = inr t) rows
    (snd (save_go from_iso iso rows)).
Proof.
  induction rows as [|[i r] rest IH]; [constructor|]. simpl.
  destruct (save_go from_iso iso rest) as [errs ts].
  destruct (save_row from_iso iso r) as [e0|t] eqn:Er; simpl; [discriminate|].
  intros H. constructor; [exact Er | exact (IH H)].
Qed.

Lemma save_go_all (rows : list (Label * EditRow)) (ts : list Task) :
  Forall2 (fun lr t => save_row from_iso iso (snd lr) = inr t) rows ts ->
  save_go from_iso iso rows = ([], ts).
Proof.
  induction 1 as [|[i r] t rows ts Hr _ IH]; [reflexivity|].
  simpl. rewrite IH. simpl in Hr. rewrite Hr. reflexivity.
Qed.

(** A task of the editor table, as [save_row] sees it. *)
Lemma save_row_editor (t : Task) :
  (forall d, from_iso (iso d) = Some d) ->
  (forall d, strip_str (iso d) = iso d /\ iso d <> ""%string) ->
  canonical_task iso t ->
  save_row from_iso iso
    {| e_date := t_date t; e_start := t_start t;
       e_duration := duration_to_hms (t_dur t); e_act := t_act t |} = inr t.
Proof.
  intros Hiso Hstr [[d Hd] [[h [m [s [Hst [Hh [Hm Hs]]]]]] [Hdur [Hact Hne]]]].
  destruct t as [td tst tdur tact]; cbn [t_date t_start t_dur t_act] in *. subst td tst.
  unfold save_row; cbn [e_date e_start e_duration e_act].
  destruct (Hstr d) as [Hs1 Hs2].
  rewrite Hs1, strip_str_hms, strip_str_duration, Hact by lia.
  rewrite (proj2 (is_empty_false (iso d)) Hs2).
  rewrite (proj2 (is_empty_false _) (hms_text_nonempty h m s)).
  rewrite (proj2 (is_empty_false _) (duration_to_hms_nonempty tdur)).
  rewrite (proj2 (is_empty_false _) Hne). cbn [orb].
  rewrite Hiso, parse_time_hms_text, duration_text_roundtrip by lia.
  reflexivity.
Qed.

End WithDates.

Lemma editor_rows_map (to_dt : string -> option Z) (ts : list Task) :
  editor_rows to_dt ts =
  combine (seq 0 (List.length ts))
    (map (fun t => {| e_date := t_date t; e_start := t_start t;
                      e_duration := duration_to_hms (t_dur t); e_act := t_act t |}) ts).
Proof.
  destruct ts as [|t0 ts']; [reflexivity|].
  unfold editor_rows. rewrite NormalizeFacts.normalize_tasks_columns by reflexivity.
  assert (Hu : dur_column_used (tasks_table (t0 :: ts')) = true) by reflexivity.
  change (rows (tasks_table (t0 :: ts'))) with (map task_raw (t0 :: ts')).
  rewrite !map_map, !length_map.
  apply f_equal, map_ext. intros x. unfold normalize_row. rewrite Hu. reflexivity.
Qed.

Lemma combine_seq_snd {A B : Type} (P : A -> B -> Prop) (l : list A) (ts : list B) :
  Forall2 P l ts ->
  forall k, Forall2 (fun lr t => P (snd lr) t) (combine (seq k (List.length l)) l) ts.
Proof.
  induction 1 as [|a t l ts Ha _ IH]; intros k; [constructor|].
  simpl. constructor; [exact Ha | apply IH].
Qed.

(** X6: every duration [parse_duration_hms] accepts is between zero and
    [timedelta.max] seconds, so the [DurationSec] the add and save paths
    store is never negative. *)
Theorem parse_duration_hms_nonneg (str : string) (d : Z) :
  parse_duration_hms str = Some d -> 0 <= d <= td_max_seconds.
Proof. apply parse_duration_range. Qed.

Lemma parse_duration_hms_nonneg_witness :
  parse_duration_hms "-0:30" = Some 30 /\ 0 <= 30 <= td_max_seconds.
Proof.
  split; [reflexivity|]. apply (parse_duration_hms_nonneg "-0:30"). reflexivity.
Defined.

(** X7: a save with an invalid row changes nothing: the task list stays
    as it was, and the errors name exactly the invalid rows, each with its
    index label and the first check it fails. *)
Theorem save_rejects_all (Date Label : Type) (from_iso : string -> option Date)
    (iso : Date -> string) (tasks : list Task) (rows : list (Label * EditRow))
    (errs : list (Label * RowError)) :
  save_rows from_iso iso rows = inl errs ->
  save_click from_iso iso tasks rows = tasks /\ errs <> [] /\
  forall j e, In (j, e) errs <->
    exists r, In (j, r) rows /\ save_row from_iso iso r = inl e.
Proof.
  unfold save_click, save_rows. intros H.
  pose proof (save_go_errors from_iso iso rows) as Herr.
  destruct (save_go from_iso iso rows) as [errs' ts] eqn:Eg.
  destruct errs' as [|x errs'']; [discriminate|]. injection H as <-.
  split; [reflexivity|]. split; [discriminate|].
  intros j e. exact (Herr j e).
Qed.

Lemma save_rejects_all_witness :
  save_rows test_from_iso test_iso
    [(0%nat, sample_row "8:00" "45:00"); (3%nat, sample_row "25:00" "1:00")]
    = inl [(3%nat, BadStart)] /\
  save_click test_from_iso test_iso [sample_task]
    [(0%nat, sample_row "8:00" "45:00"); (3%nat, sample_row "25:00" "1:00")] = [sample_task] /\
  [(3%nat, BadStart)] <> [] /\
  forall j e, In (j, e) [(3%nat, BadStart)] <->
    exists r, In (j, r) [(0%nat, sample_row "8:00" "45:00"); (3%nat, sample_row "25:00" "1:00")] /\
              save_row test_from_iso test_iso r = inl e.
Proof.
  split; [reflexivity|].
  apply (save_rejects_all unit nat test_from_iso test_iso [sample_task]
           [(0%nat, sample_row "8:00" "45:00"); (3%nat, sample_row "25:00" "1:00")]).
  reflexivity.
Defined.

(** X8: a save without errors replaces the task list by one task per
    edited row, in row order, and every saved task has the stored shape
    (ISO date, [HH:MM:SS] start, duration in [0, timedelta.max], stripped
    non-empty activity). *)
Theorem save_accepts_rows (Date Label : Type) (from_iso : string -> option Date)
    (iso : Date -> string) (tasks : list Task) (rows : list (Label * EditRow))
    (ts : list Task) :
  save_rows from_iso iso rows = inr ts ->
  save_click from_iso iso tasks rows = ts /\
  Forall2 (fun lr t => save_row from_iso iso (snd lr) = inr t) rows ts /\
  Forall (canonical_task iso) ts.
Proof.
  unfold save_click, save_rows. intros H.
  pose proof (save_go_tasks from_iso iso rows) as Hok.
  destruct (save_go from_iso iso rows) as [errs ts'] eqn:Eg.
  destruct errs as [|x errs]; [|discriminate]. injection H as <-.
  split; [reflexivity|].
  specialize (Hok eq_refl). simpl snd in Hok. split; [exact Hok|].
  clear Eg. induction Hok as [|[i r] t rows' ts'' Hr _ IH]; constructor; [|exact IH].
  exact (save_row_canonical from_iso iso r t Hr).
Qed.

Lemma save_accepts_rows_witness :
  save_rows test_from_iso test_iso [(0%nat, sample_row "8:00" "45:00")] = inr [sample_task] /\
  save_click test_from_iso test_iso [] [(0%nat, sample_row "8:00" "45:00")] = [sample_task] /\
  Forall2 (fun lr t => save_row test_from_iso test_iso (snd lr) = inr t)
    [(0%nat, sample_row "8:00" "45:00")] [sample_task] /\
  Forall (canonical_task test_iso) [sample_task].
Proof.
  split; [reflexivity|].
  apply (save_accepts_rows unit nat test_from_iso test_iso [] [(0%nat, sample_row "8:00" "45:00")]).
  reflexivity.
Defined.

(** X9: a task added with the "Adicionar" button has the stored shape,
    carries the ISO text of the chosen date and the stripped activity. *)
Theorem add_task_canonical (Date : Type) (iso : Date -> string) (d : Date)
    (start_s dur_s activity : string) (t : Task) :
  add_task iso d start_s dur_s activity = inr t ->
  canonical_task iso t /\ t_date t = iso d /\ t_act t = strip_str activity.
Proof.
  unfold add_task.
  destruct (is_empty (strip_str activity)) eqn:Ea; [discriminate|].
  destruct (parse_time_str start_s) as [[[h m] s]|] eqn:Et; [|discriminate].
  destruct (parse_duration_hms dur_s) as [dur|] eqn:Ed; [|discriminate].
  intros H; injection H as <-. cbn [t_date t_act]. split; [|split; reflexivity].
  split; [exists d; reflexivity|]. split.
  - exists h, m, s. split; [reflexivity|]. exact (parse_time_range _ h m s Et).
  - cbn [t_dur t_act]. split; [exact (parse_duration_range _ dur Ed)|].
    split; [apply strip_str_idem|]. apply is_empty_false; exact Ea.
Qed.

Lemma add_task_canonical_witness :
  add_task test_iso tt "8:00" "45:00" " Briefing " = inr sample_task /\
  canonical_task test_iso sample_task /\ t_date sample_task = test_iso tt /\
  t_act sample_task = strip_str " Briefing ".
Proof.
  split; [reflexivity|].
  apply (add_task_canonical unit test_iso tt "8:00" "45:00" " Briefing "). reflexivity.
Defined.

(** X10: saving the editor table unchanged gives back the task list it was
    built from, for tasks of the stored shape: the Duration column
    [duration_to_hms(DurationSec)] parses back to [DurationSec], the Start
    text to the same time, and [fromisoformat] reads the ISO date back. *)
Theorem editor_save_unchanged (Date : Type) (from_iso : string -> option Date)
    (iso : Date -> string) (to_dt : string -> option Z) (ts : list Task) :
  (forall d, from_iso (iso d) = Some d) ->
  (forall d, strip_str (iso d) = iso d /\ iso d <> ""%string) ->
  Forall (canonical_task iso) ts ->
  save_rows from_iso iso (editor_rows to_dt ts) = inr ts.
Proof.
  intros Hiso Hstr Hall. rewrite editor_rows_map. unfold save_rows.
  rewrite (save_go_all from_iso iso _ ts); [reflexivity|].
  rewrite <- (length_map (fun t => {| e_date := t_date t; e_start := t_start t;
                                      e_duration := duration_to_hms (t_dur t);
                                      e_act := t_act t |}) ts).
  apply (combine_seq_snd (fun r t => save_row from_iso iso r = inr t)).
  induction Hall as [|t ts' Ht _ IH]; simpl; constructor; [|exact IH].
  apply save_row_editor; assumption.
Qed.

Lemma editor_save_unchanged_witness :
  (forall d, test_from_iso (test_iso d) = Some d) /\
  (forall d, strip_str (test_iso d) = test_iso d /\ test_iso d <> ""%string) /\
  Forall (canonical_task test_iso) [sample_task] /\
  save_rows test_from_iso test_iso (editor_rows (fun _ => None) [sample_task]) = inr [sample_task].
Proof.
  assert (H1 : forall d, test_from_iso (test_iso d) = Some d) by (intros []; reflexivity).
  assert (H2 : forall d, strip_str (test_iso d) = test_iso d /\ test_iso d <> ""%string)
    by (intros []; split; [reflexivity | discriminate]).
  assert (H3 : Forall (canonical_task test_iso) [sample_task]).
  { constructor; [|constructor].
    split; [exists tt; reflexivity|]. split.
    - exists 8, 0, 0. split; [reflexivity | lia].
    - split; [split; [cbn; lia | apply Z.leb_le; reflexivity]|].
      split; [reflexivity | discriminate]. }
  split; [exact H1|]. split; [exact H2|]. split; [exact H3|].
  apply (editor_save_unchanged unit test_from_iso test_iso (fun _ => None) [sample_task] H1 H2 H3).
Defined.

End EditorFacts.

(** ** KPIs *)

Module KpiFacts.
Import PyStr Schedule Classify TimeOfDay Kpi Props Fixtures ClassifyFacts TimeFacts.

Example kpi_mixed :
  current_row 35 [mk_sched 10 20; mk_sched 30 40; mk_sched 50 60] = Some (mk_sched 30 40) /\
  next_row 35 [mk_sched 10 20; mk_sched 30 40; mk_sched 50 60] = Some (mk_sched 50 60) /\
  completed 35 [mk_sched 10 20; mk_sched 30 40; mk_sched 50 60] = 1%nat.
Proof. split; [reflexivity|]. split; reflexivity. Qed.

Lemma status_eqb_iff (a b : Status) : status_eqb a b = true <-> a = b.
Proof. destruct a, b; simpl; split; congruence. Qed.

Lemma length_promote (l : list Status) : List.length (promote_first l) = List.length l.
Proof. induction l as [|[] l IH]; simpl; congruence. Qed.

Lemma length_classify (now : Z) (rs : list Sched) :
  List.length (classify_rows now rs) = List.length rs.
Proof. unfold classify_rows. rewrite length_promote, length_map. reflexivity. Qed.

(** [first_with st] picks the row at the first position whose status is [st]. *)
Lemma first_with_spec (st : Status) (rs : list Sched) (cls : list Status) (r : Sched) :
  List.length cls = List.length rs ->
  first_with st rs cls = Some r <->
  exists i, nth_error rs i = Some r /\ nth_error cls i = Some st /\
            forall j, (j < i)%nat -> nth_error cls j <> Some st.
Proof.
  revert cls; induction rs as [|a rs IH]; intros cls Hlen.
  - destruct cls as [|c cls]; [|discriminate]. simpl.
    split; [discriminate|]. intros [[|i] [Hi _]]; discriminate.
  - destruct cls as [|c cls]; [discriminate|]. simpl in Hlen. injection Hlen as Hlen.
    simpl. destruct (status_eqb st c) eqn:E.
    + apply status_eqb_iff in E. subst c. split.
      * intros H; injection H as <-. exists O. split; [reflexivity|]. split; [reflexivity|].
        intros j Hj; lia.
      * intros [[|i] [Hi [_ Hj]]].
        -- simpl in Hi. congruence.
        -- exfalso. apply (Hj O); [lia | reflexivity].
    + rewrite (IH cls Hlen). split.
      * intros [i [Hi [Hc Hj]]]. exists (S i). split; [exact Hi|]. split; [exact Hc|].
        intros [|j] Hji; simpl.
        -- intros H; injection H as ->. destruct st; discriminate.
        -- apply Hj; lia.
      * intros [[|i] [Hi [Hc Hj]]].
        -- simpl in Hc. injection Hc as ->. destruct st; discriminate.
        -- exists i. split; [exact Hi|]. split; [exact Hc|].
           intros j Hji. apply (Hj (S j)); lia.
Qed.

Lemma classify_running (now : Z) (rs : list Sched) (i : nat) :
  nth_error (classify_rows now rs) i = Some Running <->
  exists r, nth_error rs i = Some r /\ s_start r <= now < s_end r.
Proof.
  split.
  - intros H. destruct (nth_error rs i) as [r|] eqn:Ei.
    + exists r. split; [reflexivity|]. apply running_iff.
      rewrite (classify_rows_nth now rs i r Ei) in H. injection H as H.
      destruct (stat now r); try discriminate; [reflexivity|].
      destruct (existsb _ _); discriminate.
    + apply nth_error_None in Ei. rewrite <- (length_classify now rs) in Ei.
      apply nth_error_None in Ei. congruence.
  - intros [r [Hr Hrun]]. rewrite (classify_rows_nth now rs i r Hr).
    apply running_iff in Hrun. rewrite Hrun. reflexivity.
Qed.

Lemma upcoming_iff (now : Z) (r : Sched) :
  stat now r = Upcoming <-> now < s_start r /\ now < s_end r.
Proof.
  destruct (stat_cases now r) as [_ [_ HU]]. rewrite HU. split.
  - intros [H1 H2]. lia.
  - intros [H1 H2]. split; lia.
Qed.

Lemma classify_next (now : Z) (rs : list Sched) (i : nat) :
  nth_error (classify_rows now rs) i = Some Next <->
  exists r, nth_error rs i = Some r /\ stat now r = Upcoming /\
    forall j r', (j < i)%nat -> nth_error rs j = Some r' -> stat now r' <> Upcoming.
Proof.
  assert (Hex : existsb (status_eqb Upcoming) (firstn i (map (stat now) rs)) = true <->
                exists j r', (j < i)%nat /\ nth_error rs j = Some r' /\ stat now r' = Upcoming).
  { rewrite existsb_firstn_iff. split.
    - intros [j [y [Hj [Hn Hp]]]]. rewrite nth_error_map in Hn.
      destruct (nth_error rs j) as [r'|] eqn:E; [|discriminate].
      injection Hn as Hy. exists j, r'. split; [exact Hj|]. split; [exact E|].
      rewrite Hy. apply status_eqb_iff in Hp. symmetry; exact Hp.
    - intros [j [r' [Hj [Hn Hp]]]]. exists j, (stat now r'). split; [exact Hj|]. split.
      + rewrite nth_error_map, Hn. reflexivity.
      + rewrite Hp. reflexivity. }
  split.
  - intros H. destruct (nth_error rs i) as [r|] eqn:Ei.
    + rewrite (classify_rows_nth now rs i r Ei) in H. injection H as H.
      exists r. split; [reflexivity|].
      assert (Hnn : stat now r <> Next).
      { unfold stat. destruct (s_end r <=? now); [discriminate|].
        destruct (_ && _); discriminate. }
      destruct (stat now r); try discriminate; [congruence|].
      destruct (existsb (status_eqb Upcoming) (firstn i (map (stat now) rs))) eqn:Eb;
        [discriminate|].
      split; [reflexivity|]. intros j r' Hj Hr' Hu.
      assert (Ht : false = true) by (apply Hex; exists j, r'; auto).
      discriminate.
    + apply nth_error_None in Ei. rewrite <- (length_classify now rs) in Ei.
      apply nth_error_None in Ei. congruence.
  - intros [r [Hr [Hu Hj]]]. rewrite (classify_rows_nth now rs i r Hr), Hu.
    destruct (existsb (status_eqb Upcoming) (firstn i (map (stat now) rs))) eqn:Eb;
      [|reflexivity].
    exfalso. destruct (proj1 Hex eq_refl) as [j [r' [Hji [Hr' Hu']]]].
    exact (Hj j r' Hji Hr' Hu').
Qed.

Lemma count_done_promote (l : list Status) :
  count_status Done (promote_first l) = count_status Done l.
Proof.
  induction l as [|y l IH]; [reflexivity|].
  destruct y; unfold count_status in *; simpl; try rewrite IH; reflexivity.
Qed.

(** X11: the "Atividades concluídas" counter is the number of scheduled
    rows whose end is not after [now]. *)
Theorem completed_counts_ended (now : Z) (rs : list Sched) :
  completed now rs = List.length (filter (fun r => s_end r <=? now) rs).
Proof.
  unfold completed, classify_rows. rewrite count_done_promote.
  induction rs as [|r rs IH]; [reflexivity|].
  unfold count_status in *. cbn [map filter].
  unfold stat at 1. destruct (s_end r <=? now).
  - cbn [status_eqb List.length]. rewrite IH. reflexivity.
  - destruct ((s_start r <=? now) && (now <? s_end r)); cbn [status_eqb]; exact IH.
Qed.

(** X12: the running row of the KPIs is the first row (in schedule order)
    with [Start <= now < End], and its "time to finish" is the text of a
    positive span: it starts with a digit, never with "-". *)
Theorem current_row_first_running (ws : Z -> N) (now : Z) (rs : list Sched) (r : Sched) :
  (current_row now rs = Some r <->
   exists i, nth_error rs i = Some r /\ s_start r <= now < s_end r /\
     forall j r', (j < i)%nat -> nth_error rs j = Some r' -> ~ (s_start r' <= now < s_end r')) /\
  (current_row now rs = Some r ->
   exists c rest, time_to_finish ws now rs = Some (String c rest) /\ is_digit c = true).
Proof.
  assert (Hspec : current_row now rs = Some r <->
    exists i, nth_error rs i = Some r /\ s_start r <= now < s_end r /\
      forall j r', (j < i)%nat -> nth_error rs j = Some r' -> ~ (s_start r' <= now < s_end r')).
  { unfold current_row. rewrite first_with_spec by apply length_classify. split.
    - intros [i [Hr [Hc Hj]]]. apply classify_running in Hc.
      destruct Hc as [r0 [Hr0 Hrun]]. rewrite Hr in Hr0. injection Hr0 as <-.
      exists i. split; [exact Hr|]. split; [exact Hrun|].
      intros j r' Hji Hr' Hrun'. apply (Hj j Hji). apply classify_running.
      exists r'. split; assumption.
    - intros [i [Hr [Hrun Hj]]]. exists i. split; [exact Hr|]. split.
      + apply classify_running. exists r. split; assumption.
      + intros j Hji Hc. apply classify_running in Hc. destruct Hc as [r' [Hr' Hrun']].
        exact (Hj j r' Hji Hr' Hrun'). }
  split; [exact Hspec|].
  intros Hc. unfold time_to_finish. rewrite Hc. cbn [option_map].
  destruct (proj1 Hspec Hc) as [i [_ [Hrun _]]].
  destruct (human_td_digit_head ws (s_end r - now)) as [c [rest [E Hd]]]; [lia|].
  exists c, rest. rewrite E. split; [reflexivity | exact Hd].
Qed.

(** X13: the next row of the KPIs is the first row (in schedule order)
    that starts and ends after [now], and its "time to next" is the text of
    a positive span: it starts with a digit, never with "-". *)
Theorem next_row_first_future (ws : Z -> N) (now : Z) (rs : list Sched) (r : Sched) :
  (next_row now rs = Some r <->
   exists i, nth_error rs i = Some r /\ now < s_start r /\ now < s_end r /\
     forall j r', (j < i)%nat -> nth_error rs j = Some r' -> ~ (now < s_start r' /\ now < s_end r')) /\
  (next_row now rs = Some r ->
   exists c rest, time_to_next ws now rs = Some (String c rest) /\ is_digit c = true).
Proof.
  assert (Hspec : next_row now rs = Some r <->
    exists i, nth_error rs i = Some r /\ now < s_start r /\ now < s_end r /\
      forall j r', (j < i)%nat -> nth_error rs j = Some r' -> ~ (now < s_start r' /\ now < s_end r')).
  { unfold next_row. rewrite first_with_spec by apply length_classify. split.
    - intros [i [Hr [Hc _]]]. apply classify_next in Hc.
      destruct Hc as [r0 [Hr0 [Hu Hj]]]. rewrite Hr in Hr0. injection Hr0 as <-.
      apply upcoming_iff in Hu.
      exists i. split; [exact Hr|]. split; [apply Hu|]. split; [apply Hu|].
      intros j r' Hji Hr' Hf. apply (Hj j r' Hji Hr'). apply upcoming_iff; exact Hf.
    - intros [i [Hr [Hs [He Hj]]]]. exists i. split; [exact Hr|]. split.
      + apply classify_next. exists r. split; [exact Hr|].
        split; [apply upcoming_iff; split; assumption|].
        intros j r' Hji Hr' Hu. apply upcoming_iff in Hu. exact (Hj j r' Hji Hr' Hu).
      + intros j Hji Hc. apply classify_next in Hc. destruct Hc as [r' [Hr' [Hu _]]].
        apply upcoming_iff in Hu. exact (Hj j r' Hji Hr' Hu). }
  split; [exact Hspec|].
  intros Hc. unfold time_to_next. rewrite Hc. cbn [option_map].
  destruct (proj1 Hspec Hc) as [i [_ [Hs _]]].
  destruct (human_td_digit_head ws (s_start r - now)) as [c [rest [E Hd]]]; [lia|].
  exists c, rest. rewrite E. split; [reflexivity | exact Hd].
Qed.

Lemma total_seconds_le (a b : Z) : a <= b -> (total_seconds a <= total_seconds b)%Q.
Proof. intros H. unfold total_seconds, Qle. simpl. nia. Qed.

Lemma clamp_bounds (x : Q) : (0 <= Qmax 0 (Qmin 1 x) <= 1)%Q.
Proof.
  split; [apply Q.le_max_l|].
  apply Q.max_lub; [discriminate | apply Q.le_min_l].
Qed.

(** X14: the progress fraction of the running row stays in [0, 1] and never
    decreases as [now] advances. *)
Theorem progress_bounded_monotone (r : Sched) (now now' : Z) (v v' : Q) :
  progress r now = Some v -> progress r now' = Some v' -> now <= now' ->
  (0 <= v <= 1 /\ v <= v')%Q.
Proof.
  unfold progress.
  destruct (Qle_bool (total_seconds (s_end r - s_start r)) 0) eqn:Ele.
  - intros H1 H2 _. injection H1 as <-. injection H2 as <-.
    split; [split; discriminate | apply Qle_refl].
  - assert (Hpos : (0 < total_seconds (s_end r - s_start r))%Q).
    { apply Qnot_le_lt. intros Hle. apply Qle_bool_iff in Hle. congruence. }
    assert (Hne : Qeq_bool (total_seconds (s_end r - s_start r)) 0 = false).
    { destruct (Qeq_bool _ 0) eqn:E; [|reflexivity].
      apply Qeq_bool_iff in E. rewrite E in Hpos. discriminate. }
    unfold py_div. rewrite Hne. cbn [option_map].
    intros H1 H2 Hle. injection H1 as <-. injection H2 as <-.
    split; [apply clamp_bounds|].
    apply Q.max_le_compat_l, Q.min_le_compat_l.
    unfold Qdiv. apply Qmult_le_compat_r.
    + apply total_seconds_le. lia.
    + apply Qinv_le_0_compat. apply Qlt_le_weak; exact Hpos.
Qed.

Lemma progress_bounded_monotone_witness :
  exists v v', progress (mk_sched 0 (60 * second)) (15 * second) = Some v /\
    progress (mk_sched 0 (60 * second)) (45 * second) = Some v' /\
    15 * second <= 45 * second /\ (0 <= v <= 1 /\ v <= v')%Q.
Proof.
  do 2 eexists.
  assert (H1 : progress (mk_sched 0 (60 * second)) (15 * second) = Some _) by reflexivity.
  assert (H2 : progress (mk_sched 0 (60 * second)) (45 * second) = Some _) by reflexivity.
  assert (H3 : 15 * second <= 45 * second) by (unfold second; lia).
  split; [exact H1|]. split; [exact H2|]. split; [exact H3|].
  exact (progress_bounded_monotone _ _ _ _ _ H1 H2 H3).
Defined.

End KpiFacts.

(** ** Scheduler: rows of one day *)

Module ScheduleExtraFacts.
Import Normalize Schedule Props Fixtures ScheduleFacts.

Lemma strongly_sorted_nth {A} (R : A -> A -> Prop) (l : list A) :
  StronglySorted R l ->
  forall i j a b, (i < j)%nat -> nth_error l i = Some a -> nth_error l j = Some b -> R a b.
Proof.
  induction 1 as [|x l _ IH Hx]; intros i j a b Hij Ha Hb; [destruct i; discriminate|].
  destruct j as [|j]; [lia|]. destruct i as [|i].
  - simpl in Ha, Hb. injection Ha as <-. rewrite Forall_forall in Hx.
    apply Hx. eapply nth_error_In; exact Hb.
  - simpl in Ha, Hb. apply (IH i j); [lia | exact Ha | exact Hb].
Qed.

Lemma nth_error_exists {A B} (l : list A) (l' : list B) (k : nat) (y : B) :
  List.length l' = List.length l -> nth_error l' k = Some y ->
  exists x, nth_error l k = Some x.
Proof.
  intros Hlen Hy. destruct (nth_error l k) as [x|] eqn:E; [exists x; reflexivity|].
  apply nth_error_None in E. rewrite <- Hlen in E. apply nth_error_None in E. congruence.
Qed.

(** X15: in the schedule, two rows of the same day never overlap when the
    durations are not negative: each later row of a day starts at least
    [GAP] (one minute) after any earlier row of that day ends. *)
Theorem same_day_rows_apart (to_date : string -> option Z) (date_str : Z -> string)
    (to_dt : string -> option Z) (localize : Z -> option Z)
    (td_ok ts_ok : Z -> bool) (t : RawTable) (out : list Sched) :
  compute_schedule to_date date_str to_dt localize td_ok ts_ok t = Some out ->
  Forall (fun y => 0 <= s_dur y) out ->
  forall i j x y, (i < j)%nat -> nth_error out i = Some x -> nth_error out j = Some y ->
    s_date x = s_date y -> s_end x + GAP <= s_start y.
Proof.
  unfold compute_schedule.
  destruct (prepare to_date date_str to_dt localize t) as [l|] eqn:Ep; [|discriminate].
  intros Hout Hdur.
  unfold prepare in Ep.
  destruct (parse_rows to_date date_str to_dt localize (normalize_tasks to_dt t)) as [bs|];
    [|discriminate].
  injection Ep as <-.
  set (l := sort_rows bs).
  assert (Hss : StronglySorted date_le l) by apply sort_rows_by_date.
  assert (Hnil : forall k v z, In (k, v) (@nil (Z * Z)) -> In z l -> k <= b_date z)
    by (intros k v z []).
  pose proof (chain_nth td_ok ts_ok l Hss [] out Hnil Hout) as Hc.
  pose proof (length_chain td_ok ts_ok [] l out Hout) as Hlen.
  rewrite Forall_forall in Hdur.
  intros i j. revert i. induction j as [|j IH]; intros i x y Hij Hx Hy Hd; [lia|].
  destruct (nth_error_exists l _ (S j) y Hlen Hy) as [bj Hbj].
  destruct (nth_error_exists l _ i x Hlen Hx) as [bi Hbi].
  assert (Hq : exists q, nth_error out j = Some q).
  { destruct (nth_error out j) as [q|] eqn:E; [exists q; reflexivity|].
    apply nth_error_None in E. assert (Hs : nth_error out (S j) <> None) by congruence.
    apply nth_error_Some in Hs. lia. }
  destruct Hq as [q Hq].
  destruct (nth_error_exists l _ j q Hlen Hq) as [p Hp].
  destruct (Hc (S j) bj y Hbj Hy) as [Hyd [_ [_ [_ [_ H6]]]]].
  destruct (Hc i bi x Hbi Hx) as [Hxd _].
  destruct (Hc j p q Hp Hq) as [Hqd [Hqdur [_ [Hqend _]]]].
  assert (Hpj : date_le p bj) by (apply (strongly_sorted_nth _ l Hss j (S j)); [lia | exact Hp | exact Hbj]).
  assert (Hdp : b_date p = b_date bj).
  { unfold date_le in Hpj.
    destruct (Nat.eq_dec i j) as [->|Hne].
    - rewrite Hbi in Hp. injection Hp as <-. lia.
    - assert (Hip : date_le bi p)
        by (apply (strongly_sorted_nth _ l Hss i j); [lia | exact Hbi | exact Hp]).
      unfold date_le in Hip. lia. }
  destruct (H6 p q ltac:(discriminate) Hp Hq) as [Hstart _].
  specialize (Hstart Hdp).
  destruct (Nat.eq_dec i j) as [->|Hne].
  - rewrite Hx in Hq. injection Hq as <-. lia.
  - assert (Hxq : s_end x + GAP <= s_start q)
      by (apply (IH i x q); [lia | exact Hx | exact Hq | lia]).
    assert (Hdq : 0 <= s_dur q) by (apply Hdur; eapply nth_error_In; exact Hq).
    unfold GAP, second in *. clear - Hstart Hqend Hxq Hdq Hqdur. lia.
Qed.

Lemma same_day_rows_apart_witness :
  exists out,
    compute_schedule test_to_date test_date_str test_to_dt test_localize
      test_td_ok test_ts_ok scenario_b_table = Some out /\
    Forall (fun y => 0 <= s_dur y) out /\
    forall i j x y, (i < j)%nat -> nth_error out i = Some x -> nth_error out j = Some y ->
      s_date x = s_date y -> s_end x + GAP <= s_start y.
Proof.
  eexists.
  assert (H1 : compute_schedule test_to_date test_date_str test_to_dt test_localize
                 test_td_ok test_ts_ok scenario_b_table = Some _) by (vm_compute; reflexivity).
  assert (H2 : Forall (fun y => 0 <= s_dur y)
    [{| s_date := 19844; s_start := 8 * 3600 * second; s_end := 8 * 3600 * second + 2700 * second;
        s_dur := 2700; s_act := "Briefing" |};
     {| s_date := 19844; s_start := 8 * 3600 * second + 2700 * second + GAP;
        s_end := 8 * 3600 * second + 2700 * second + GAP + 1800 * second;
        s_dur := 1800; s_act := "Warmup" |}])
    by (repeat constructor; cbn; lia).
  split; [exact H1|].
  split; [vm_compute in H2 |- *; exact H2|].
  exact (same_day_rows_apart test_to_date test_date_str test_to_dt test_localize
           test_td_ok test_ts_ok scenario_b_table _ H1 ltac:(vm_compute in H2 |- *; exact H2)).
Defined.

End ScheduleExtraFacts.
